(** * The [github:team:create] scaffolder action

    A shallow embedding of
    [plugins/scaffolder-backend-module-github-team/src/actions/githubTeam.ts]:
    the credential resolver [getOctokitOptionsForOrg] and the [handler] of the
    action built by [createGithubTeamCreateAction].

    The action talks to four collaborators: the integration registry, a
    credentials provider, the Octokit client and the framework context
    (logger and [output]).  Every interaction is recorded, in order, in a
    trace of events; the collaborators answer as functions of the trace so
    far, which covers mocks that answer differently from call to call.

    What is taken for granted about the collaborators: the logger and
    [output] are sinks that return; [byHost], [fromIntegrations] and
    [new Octokit] return; [getCredentials] and the two Octokit calls settle,
    either way, with values of their declared types. *)

From Stdlib Require Import String Ascii List Bool Arith ZArith Lia DecimalString.
Import ListNotations.
Open Scope string_scope.

Set Implicit Arguments.

(** ** JavaScript values the action manipulates *)

Module Js.


(** An instance of [Error]: [new Error(m)] has name ["Error"],
    [new InputError(m)] has name ["InputError"]. *)
Record Error := mkError { name : string; message : string }.

(** What a [throw] or a rejected promise carries: an instance of [Error],
    or any other value, of which only its string rendering is observed. *)
Inductive Thrown :=
| ErrorInstance (e : Error)
| NonError (rendering : string).

Definition newError (m : string) : Thrown := ErrorInstance (mkError "Error" m).
Definition newInputError (m : string) : Thrown :=
  ErrorInstance (mkError "InputError" m).

(** [error instanceof Error ? error.message : 'Unknown error'] *)
Definition errorMessage (error : Thrown) : string :=
  match error with
  | ErrorInstance e => message e
  | NonError _ => "Unknown error"
  end.

(** [`${error}`]: [Error.prototype.toString] for instances of [Error]. *)
Definition toString (error : Thrown) : string :=
  match error with
  | ErrorInstance e =>
      if name e =? "" then message e
      else if message e =? "" then name e
      else name e ++ ": " ++ message e
  | NonError s => s
  end.

(** Truthiness of an optional string: [undefined] and [""] are falsy. *)
Definition truthy (v : option string) : bool :=
  match v with
  | Some s => negb (s =? "")
  | None => false
  end.

(** [`${v}`] for an optional string. *)
Definition template (v : option string) : string :=
  match v with
  | Some s => s
  | None => "undefined"
  end.

(** [`${!!v}`] *)
Definition templateBool (b : bool) : string := if b then "true" else "false".

(** [`${n}`] for an array length and for an integral number. *)
Definition templateLength (n : nat) : string :=
  NilZero.string_of_uint (Nat.to_uint n).
Definition templateNumber (z : Z) : string :=
  NilZero.string_of_int (Z.to_int z).

(** [xs.join(sep)] *)
Definition join (sep : string) (xs : list string) : string :=
  String.concat sep xs.

(** *** [encodeURIComponent]

    Strings are sequences of UTF-8 bytes.  The unreserved characters
    [A-Z a-z 0-9 - _ . ! ~ * ' ( )] are kept, every other byte becomes
    [%XX] with upper-case hexadecimal digits. *)

Definition between (lo hi n : nat) : bool := Nat.leb lo n && Nat.leb n hi.

Definition unreserved (c : ascii) : bool :=
  let n := nat_of_ascii c in
  between 65 90 n || between 97 122 n || between 48 57 n
  || existsb (Nat.eqb n) [45; 95; 46; 33; 126; 42; 39; 40; 41].

Definition hexDigit (n : nat) : ascii :=
  if Nat.ltb n 10 then ascii_of_nat (48 + n) else ascii_of_nat (55 + n).

Definition percentEncode (c : ascii) : string :=
  let n := nat_of_ascii c in
  String "%" (String (hexDigit (n / 16)) (String (hexDigit (n mod 16)) "")).

Fixpoint encodeURIComponent (s : string) : string :=
  match s with
  | EmptyString => ""
  | String c rest =>
      (if unreserved c then String c "" else percentEncode c)
      ++ encodeURIComponent rest
  end.

End Js.

(** ** Data of the action *)

(** [z.enum(['closed', 'secret'])] *)
Module Privacy.
Inductive t := closed | secret.
Definition str (p : t) : string :=
  match p with closed => "closed" | secret => "secret" end.
End Privacy.

(** [z.enum(['member', 'maintainer'])] *)
Module Role.
Inductive t := member | maintainer.
Definition str (r : t) : string :=
  match r with member => "member" | maintainer => "maintainer" end.
End Role.

(** [input.privacy || 'closed'] and [member.role || 'member']: both enums
    have non-empty strings only, so only [undefined] takes the default. *)
Definition orDefault {A} (v : option A) (d : A) : A :=
  match v with Some a => a | None => d end.

Module MemberSpec.
Record t := mk { username : string; role : option Role.t }.
End MemberSpec.

(** The [input] of the action (schema of [createTemplateAction]).  The
    handler tests [organization] itself, so it is optional here. *)
Module Input.
Record t := mk {
  organization : option string;
  teamName : string;
  description : option string;
  privacy : option Privacy.t;
  members : option (list MemberSpec.t);
  token : option string
}.
End Input.

(** Entries of [memberResults.added] and [memberResults.failed]. *)
Module Added.
Record t := mk { username : string; role : Role.t }.
End Added.

Module Failed.
Record t := mk { username : string; role : Role.t; error : string }.
End Failed.

Module MemberResults.
Record t := mk { added : list Added.t; failed : list Failed.t }.
Definition empty : t := mk [] [].
(** [memberResults.added.push(a)] and [memberResults.failed.push(f)] *)
Definition pushAdded (r : t) (a : Added.t) : t := mk (added r ++ [a]) (failed r).
Definition pushFailed (r : t) (f : Failed.t) : t := mk (added r) (failed r ++ [f]).
End MemberResults.

(** ** Collaborators *)

(** [integrations.github.byHost(host)?.config] *)
Module IntegrationConfig.
Record t := mk {
  host : string;
  apiBaseUrl : option string;
  token : option string
}.
End IntegrationConfig.

Module ScmIntegrationRegistry.
Record t := mk { github_byHost : string -> option IntegrationConfig.t }.
End ScmIntegrationRegistry.

(** What [getCredentials] resolves to; only [token] is read. *)
Module Credentials.
Record t := mk { token : option string }.
End Credentials.

(** The options handed to [new Octokit]. *)
Module OctokitOptions.
Record t := mk {
  auth : string;
  baseUrl : option string;
  previews : list string;
  request_timeout : Z
}.
End OctokitOptions.

(** Parameters of [octokit.rest.teams.create]. *)
Module CreateParams.
Record t := mk {
  org : string;
  name : string;
  description : option string;
  privacy : Privacy.t
}.
End CreateParams.

(** [teamResponse.data] *)
Module Team.
Record t := mk { id : Z; name : string; slug : string; html_url : string }.
End Team.

(** Parameters of [octokit.rest.teams.addOrUpdateMembershipForUserInOrg]. *)
Module MembershipParams.
Record t := mk {
  org : string;
  team_slug : string;
  username : string;
  role : Role.t
}.
End MembershipParams.

(** ** Events and traces *)

Module LogLevel.
Inductive t := info | warn | error.
End LogLevel.

Inductive OutputValue :=
| OutNumber (z : Z)
| OutString (s : string)
| OutAdded (l : list Added.t)
| OutFailed (l : list Failed.t).

(** A settled promise: rejected with a thrown value or fulfilled. *)
Definition Settled (A : Type) : Type := (Js.Thrown + A)%type.

Inductive Event :=
| Log (level : LogLevel.t) (text : string)
| ByHost (host : string)
| FromIntegrations
| GetCredentials (url : string) (r : Settled Credentials.t)
| NewOctokit (options : OctokitOptions.t)
| TeamsCreate (p : CreateParams.t) (r : Settled Team.t)
| AddOrUpdateMembership (p : MembershipParams.t) (r : Settled unit)
| Output (key : string) (v : OutputValue).

Definition Trace := list Event.

(** A credentials provider and an Octokit client answer from the history of
    the invocation and the arguments of the call. *)
Module GithubCredentialsProvider.
Record t := mk { getCredentials : Trace -> string -> Settled Credentials.t }.
End GithubCredentialsProvider.

Module OctokitClient.
Record t := mk {
  teams_create : Trace -> CreateParams.t -> Settled Team.t;
  teams_addOrUpdateMembershipForUserInOrg :
    Trace -> MembershipParams.t -> Settled unit
}.
End OctokitClient.

(** The imported modules the action calls into:
    [DefaultGithubCredentialsProvider.fromIntegrations] of
    [@backstage/integration] and the constructor [Octokit] of [octokit]. *)
Module Platform.
Record t := mk {
  DefaultGithubCredentialsProvider_fromIntegrations :
    ScmIntegrationRegistry.t -> GithubCredentialsProvider.t;
  Octokit : OctokitOptions.t -> OctokitClient.t
}.
End Platform.

(** ** Effects

    A computation reads the trace so far, appends its own events and either
    returns a value or throws.  [await] of a rejected promise throws. *)

Inductive Outcome (A : Type) :=
| Returned (a : A)
| Threw (e : Js.Thrown).

Arguments Threw {A} e.

Definition Eff (A : Type) : Type := Trace -> Outcome A * Trace.

Definition ret {A} (a : A) : Eff A := fun tr => (Returned a, tr).

Definition throw {A} (e : Js.Thrown) : Eff A := fun tr => (Threw e, tr).

Definition bind {A B} (c : Eff A) (k : A -> Eff B) : Eff B :=
  fun tr =>
    match c tr with
    | (Returned a, tr') => k a tr'
    | (Threw e, tr') => (Threw e, tr')
    end.

(** [try { body } catch (error) { handler }] *)
Definition tryCatch {A} (body : Eff A) (handler : Js.Thrown -> Eff A) : Eff A :=
  fun tr =>
    match body tr with
    | (Returned a, tr') => (Returned a, tr')
    | (Threw e, tr') => handler e tr'
    end.

(** An interaction that cannot fail: it only leaves its event. *)
Definition emit (ev : Event) : Eff unit :=
  fun tr => (Returned tt, (tr ++ [ev])%list).

(** [await] of a call to a collaborator: the answer is computed from the
    trace so far and recorded with the call. *)
Definition await {A} (respond : Trace -> Settled A) (ev : Settled A -> Event)
  : Eff A :=
  fun tr =>
    let r := respond tr in
    (match r with inl e => Threw e | inr a => Returned a end,
     (tr ++ [ev r])%list).

Declare Scope eff_scope.
Delimit Scope eff_scope with eff.
Notation "x <- c ;; k" := (bind c (fun x => k))
  (at level 61, c at next level, right associativity) : eff_scope.
Notation "c ;; k" := (bind c (fun _ => k))
  (at level 61, right associativity) : eff_scope.
Open Scope eff_scope.

(** [ctx.logger.info], [ctx.logger.warn], [ctx.logger.error]: a sink. *)
Definition logger_info (text : string) : Eff unit := emit (Log LogLevel.info text).
Definition logger_warn (text : string) : Eff unit := emit (Log LogLevel.warn text).
Definition logger_error (text : string) : Eff unit := emit (Log LogLevel.error text).

(** [ctx.output(key, value)] *)
Definition output (key : string) (v : OutputValue) : Eff unit :=
  emit (Output key v).

(** ** The action *)

(** What [createTemplateAction] is given, without the schema. *)
Module TemplateAction.
Record t := mk {
  id : string;
  description : string;
  handler : Input.t -> Eff unit
}.
End TemplateAction.

Section Action.

Variable platform : Platform.t.

(** [integrations.github.byHost(host)?.config] *)
Definition byHost (integrations : ScmIntegrationRegistry.t) (host : string)
  : Eff (option IntegrationConfig.t) :=
  emit (ByHost host) ;;
  ret (ScmIntegrationRegistry.github_byHost integrations host).

(** [DefaultGithubCredentialsProvider.fromIntegrations(integrations)] *)
Definition fromIntegrations (integrations : ScmIntegrationRegistry.t)
  : Eff GithubCredentialsProvider.t :=
  emit FromIntegrations ;;
  ret (Platform.DefaultGithubCredentialsProvider_fromIntegrations
         platform integrations).

(** [await provider.getCredentials({ url })] *)
Definition getCredentials (provider : GithubCredentialsProvider.t)
  (url : string) : Eff Credentials.t :=
  await (fun tr => GithubCredentialsProvider.getCredentials provider tr url)
        (GetCredentials url).

(** The [options] argument of [getOctokitOptionsForOrg]. *)
Record ResolverOptions := {
  integrations : ScmIntegrationRegistry.t;
  credentialsProvider : option GithubCredentialsProvider.t;
  token : option string;
  host : string;
  owner : string
}.

Definition getOctokitOptionsForOrg (options : ResolverOptions)
  : Eff OctokitOptions.t :=
  let integrations := integrations options in
  let credentialsProvider := credentialsProvider options in
  let token := token options in
  let host := host options in
  let owner := owner options in
  (* Get the integration config for this host *)
  integrationConfig <- byHost integrations host ;;
  match integrationConfig with
  | None => throw (Js.newInputError ("No integration for host " ++ host))
  | Some integrationConfig =>
      let requestOptions_timeout := 60000%Z in
      (* If a token is provided, use it directly *)
      if Js.truthy token then
        ret {| OctokitOptions.auth := orDefault token "";
               OctokitOptions.baseUrl :=
                 IntegrationConfig.apiBaseUrl integrationConfig;
               OctokitOptions.previews := ["nebula-preview"];
               OctokitOptions.request_timeout := requestOptions_timeout |}
      (* Ensure we have an owner for organization-level operations *)
      else if owner =? "" then
        throw (Js.newInputError
          "No organization/owner provided, which is required for GitHub App authentication")
      else
        (* Use the credentials provider with organization-only URL *)
        githubCredentialsProvider <-
          match credentialsProvider with
          | Some p => ret p
          | None => fromIntegrations integrations
          end ;;
        credentials <-
          getCredentials githubCredentialsProvider
            ("https://" ++ host ++ "/" ++ Js.encodeURIComponent owner) ;;
        let credentialProviderToken := Credentials.token credentials in
        if negb (Js.truthy credentialProviderToken) then
          throw (Js.newInputError
            ("No token available for host: " ++ host ++ ", with owner "
             ++ owner
             ++ ". Make sure GitHub App is installed on the organization."))
        else
          ret {| OctokitOptions.auth := orDefault credentialProviderToken "";
                 OctokitOptions.baseUrl :=
                   IntegrationConfig.apiBaseUrl integrationConfig;
                 OctokitOptions.previews := ["nebula-preview"];
                 OctokitOptions.request_timeout := requestOptions_timeout |}
  end.

(** The [options] argument of [createGithubTeamCreateAction]. *)
Record ActionOptions := {
  action_integrations : ScmIntegrationRegistry.t;
  githubCredentialsProvider : option GithubCredentialsProvider.t
}.

(** [new Octokit({ ...octokitOptions, log: ctx.logger })] *)
Definition newOctokit (octokitOptions : OctokitOptions.t) : Eff OctokitClient.t :=
  emit (NewOctokit octokitOptions) ;;
  ret (Platform.Octokit platform octokitOptions).

(** [await octokit.rest.teams.create(p)], giving [teamResponse.data] *)
Definition teams_create (octokit : OctokitClient.t) (p : CreateParams.t)
  : Eff Team.t :=
  await (fun tr => OctokitClient.teams_create octokit tr p) (TeamsCreate p).

(** [await octokit.rest.teams.addOrUpdateMembershipForUserInOrg(p)] *)
Definition teams_addOrUpdateMembershipForUserInOrg (octokit : OctokitClient.t)
  (p : MembershipParams.t) : Eff unit :=
  await (fun tr =>
           OctokitClient.teams_addOrUpdateMembershipForUserInOrg octokit tr p)
        (AddOrUpdateMembership p).

(** One turn of [for (const member of input.members)]: the [try] and its
    [catch].  Only the remote call can throw, and it comes before the
    [push], so the results reach the [catch] unchanged. *)
Definition addMember (octokit : OctokitClient.t) (organization : string)
  (team : Team.t) (memberResults : MemberResults.t) (member : MemberSpec.t)
  : Eff MemberResults.t :=
  let role := orDefault (MemberSpec.role member) Role.member in
  tryCatch
    (teams_addOrUpdateMembershipForUserInOrg octokit
       {| MembershipParams.org := organization;
          MembershipParams.team_slug := Team.slug team;
          MembershipParams.username := MemberSpec.username member;
          MembershipParams.role := role |} ;;
     let memberResults :=
       MemberResults.pushAdded memberResults
         {| Added.username := MemberSpec.username member;
            Added.role := role |} in
     logger_info ("✅ Added " ++ MemberSpec.username member ++ " as "
                  ++ Role.str role) ;;
     ret memberResults)
    (fun error =>
       let memberResults :=
         MemberResults.pushFailed memberResults
           {| Failed.username := MemberSpec.username member;
              Failed.role := role;
              Failed.error := Js.errorMessage error |} in
       logger_warn ("❌ Failed to add member " ++ MemberSpec.username member
                    ++ ": " ++ Js.toString error) ;;
       (* Continue with other members rather than failing completely *)
       ret memberResults).

(** [for (const member of input.members) { ... }] *)
Fixpoint addMembers (octokit : OctokitClient.t) (organization : string)
  (team : Team.t) (members : list MemberSpec.t)
  (memberResults : MemberResults.t) : Eff MemberResults.t :=
  match members with
  | [] => ret memberResults
  | member :: rest =>
      memberResults <- addMember octokit organization team memberResults member ;;
      addMembers octokit organization team rest memberResults
  end.

(** The two summary lines logged after the loop. *)
Definition logSummary (memberResults : MemberResults.t) : Eff unit :=
  (if Nat.ltb 0 (length (MemberResults.added memberResults)) then
     logger_info
       ("Successfully added "
        ++ Js.templateLength (length (MemberResults.added memberResults))
        ++ " members: "
        ++ Js.join ", "
             (map Added.username (MemberResults.added memberResults)))
   else ret tt) ;;
  (if Nat.ltb 0 (length (MemberResults.failed memberResults)) then
     logger_warn
       ("Failed to add "
        ++ Js.templateLength (length (MemberResults.failed memberResults))
        ++ " members: "
        ++ Js.join ", "
             (map Failed.username (MemberResults.failed memberResults)))
   else ret tt).

(** The block [if (input.members && input.members.length > 0) { ... }]
    with the accumulator declared before it. *)
Definition provisionMembers (octokit : OctokitClient.t) (organization : string)
  (team : Team.t) (members : option (list MemberSpec.t))
  : Eff MemberResults.t :=
  let memberResults := MemberResults.empty in
  match members with
  | None => ret memberResults
  | Some members =>
      if negb (Nat.ltb 0 (length members)) then ret memberResults
      else
        logger_info ("Adding " ++ Js.templateLength (length members)
                     ++ " members to the team") ;;
        memberResults <-
          addMembers octokit organization team members memberResults ;;
        (* Log summary of member operations *)
        logSummary memberResults ;;
        ret memberResults
  end.

Definition handler (options : ActionOptions) (input : Input.t) : Eff unit :=
  let integrations := action_integrations options in
  let githubCredentialsProvider := githubCredentialsProvider options in
  logger_info ("Creating GitHub team: " ++ Input.teamName input
               ++ " in organization: " ++ Js.template (Input.organization input)) ;;
  (* Validate required parameters *)
  if negb (Js.truthy (Input.organization input)) then
    throw (Js.newError "Organization name is required but was not provided")
  else
    let organization := orDefault (Input.organization input) "" in
    logger_info ("Getting GitHub credentials for organization: " ++ organization) ;;
    logger_info ("GitHub credentials provider available: "
                 ++ Js.templateBool
                      (match githubCredentialsProvider with
                       | Some _ => true | None => false end)) ;;
    logger_info ("User provided token: "
                 ++ Js.templateBool (Js.truthy (Input.token input))) ;;
    (* Use our custom organization-level authentication (no repo required!) *)
    logger_info ("Using organization-level authentication for: " ++ organization) ;;
    octokitOptions <-
      tryCatch
        (octokitOptions <-
           getOctokitOptionsForOrg
             {| integrations := integrations;
                credentialsProvider := githubCredentialsProvider;
                token := Input.token input;
                host := "github.com";
                owner := organization |} ;;
         logger_info "Successfully obtained Octokit options" ;;
         ret octokitOptions)
        (fun error =>
           logger_error ("Failed to get GitHub credentials for organization: "
                         ++ Js.toString error) ;;
           throw (Js.newError
             ("Failed to authenticate with GitHub for organization '"
              ++ organization ++ "': " ++ Js.errorMessage error))) ;;
    (* Create Octokit client *)
    octokit <- newOctokit octokitOptions ;;
    tryCatch
      ((* Create the team *)
       logger_info ("Creating team with privacy: "
                    ++ Privacy.str (orDefault (Input.privacy input) Privacy.closed)) ;;
       team <-
         teams_create octokit
           {| CreateParams.org := organization;
              CreateParams.name := Input.teamName input;
              CreateParams.description := Input.description input;
              CreateParams.privacy :=
                orDefault (Input.privacy input) Privacy.closed |} ;;
       logger_info ("Team created successfully: " ++ Team.name team
                    ++ " (ID: " ++ Js.templateNumber (Team.id team) ++ ")") ;;
       (* Add members to the team if provided *)
       memberResults <-
         provisionMembers octokit organization team (Input.members input) ;;
       (* Set outputs *)
       output "teamId" (OutNumber (Team.id team)) ;;
       output "teamUrl" (OutString (Team.html_url team)) ;;
       output "teamSlug" (OutString (Team.slug team)) ;;
       output "membersAdded" (OutAdded (MemberResults.added memberResults)) ;;
       output "membersFailed" (OutFailed (MemberResults.failed memberResults)) ;;
       logger_info "GitHub team creation completed successfully")
      (fun error =>
         logger_error ("Failed to create GitHub team: " ++ Js.toString error) ;;
         throw (Js.newError
           ("GitHub team creation failed: " ++ Js.errorMessage error))).

Definition createGithubTeamCreateAction (options : ActionOptions)
  : TemplateAction.t :=
  {| TemplateAction.id := "github:team:create";
     TemplateAction.description := "Creates a GitHub team in an organization";
     TemplateAction.handler := handler options |}.

End Action.

(** ** Reading a trace *)

Open Scope list_scope.

(** The invocation starts from an empty history. *)
Definition run {A} (c : Eff A) : Outcome A * Trace := c [].

(** The calls of each kind, in order. *)
Definition byHostCalls (tr : Trace) : list string :=
  flat_map (fun ev => match ev with ByHost h => [h] | _ => [] end) tr.

Definition getCredentialsCalls (tr : Trace)
  : list (string * Settled Credentials.t) :=
  flat_map (fun ev => match ev with GetCredentials u r => [(u, r)] | _ => [] end) tr.

Definition octokitClients (tr : Trace) : list OctokitOptions.t :=
  flat_map (fun ev => match ev with NewOctokit o => [o] | _ => [] end) tr.

Definition teamsCreateCalls (tr : Trace)
  : list (CreateParams.t * Settled Team.t) :=
  flat_map (fun ev => match ev with TeamsCreate p r => [(p, r)] | _ => [] end) tr.

Definition membershipCalls (tr : Trace)
  : list (MembershipParams.t * Settled unit) :=
  flat_map (fun ev =>
              match ev with AddOrUpdateMembership p r => [(p, r)] | _ => [] end) tr.

Definition outputs (tr : Trace) : list (string * OutputValue) :=
  flat_map (fun ev => match ev with Output k v => [(k, v)] | _ => [] end) tr.

(** The entry a membership call leaves in [memberResults]. *)
Definition addedOf (calls : list (MembershipParams.t * Settled unit))
  : list Added.t :=
  flat_map (fun c =>
              match snd c with
              | inr _ => [{| Added.username := MembershipParams.username (fst c);
                             Added.role := MembershipParams.role (fst c) |}]
              | inl _ => []
              end) calls.

Definition failedOf (calls : list (MembershipParams.t * Settled unit))
  : list Failed.t :=
  flat_map (fun c =>
              match snd c with
              | inl e => [{| Failed.username := MembershipParams.username (fst c);
                             Failed.role := MembershipParams.role (fst c);
                             Failed.error := Js.errorMessage e |}]
              | inr _ => []
              end) calls.

(** The parameters the loop sends for a member of the input. *)
Definition membershipParams (organization : string) (team : Team.t)
  (member : MemberSpec.t) : MembershipParams.t :=
  {| MembershipParams.org := organization;
     MembershipParams.team_slug := Team.slug team;
     MembershipParams.username := MemberSpec.username member;
     MembershipParams.role := orDefault (MemberSpec.role member) Role.member |}.

(** Events that are neither a lookup, a credential request, a client
    construction, a team creation nor an output. *)
Definition loopEvent (ev : Event) : Prop :=
  match ev with
  | Log _ _ | AddOrUpdateMembership _ _ => True
  | _ => False
  end.

Definition logEvent (ev : Event) : Prop :=
  match ev with Log _ _ => True | _ => False end.

(** [l] is [l1] and [l2] shuffled together, each in its own order. *)
Inductive Interleave {A} : list A -> list A -> list A -> Prop :=
| Interleave_nil : Interleave [] [] []
| Interleave_left x l1 l2 l :
    Interleave l1 l2 l -> Interleave (x :: l1) l2 (x :: l)
| Interleave_right x l1 l2 l :
    Interleave l1 l2 l -> Interleave l1 (x :: l2) (x :: l).

(** Number of occurrences of a username. *)
Definition occurrences (u : string) (l : list string) : nat :=
  count_occ string_dec l u.

(** Outcome and trace of an invocation. *)
Definition outcomeOf {A} (c : Eff A) : Outcome A := fst (run c).
Definition traceOf {A} (c : Eff A) : Trace := snd (run c).

(** The usernames of a list of membership calls. *)
Definition calledUsernames (calls : list (MembershipParams.t * Settled unit))
  : list string :=
  map (fun c => MembershipParams.username (fst c)) calls.

(** The spec's two checks on a pair of result lists.  [eachUsernameOnce]:
    every username of the input occurs once in all, over both lists. *)
Definition eachUsernameOnce (members : list MemberSpec.t)
  (added : list Added.t) (failed : list Failed.t) : Prop :=
  forall u, In u (map MemberSpec.username members) ->
    occurrences u (map Added.username added)
    + occurrences u (map Failed.username failed) = 1.

(** Characters that cannot end the host part of a URL or start another
    component: the unreserved ones and the percent sign. *)
Definition urlSafe (c : ascii) : bool :=
  Js.unreserved c || Ascii.eqb c "%"%char.

(** ** Shapes of the runs of the resolver and of the handler

    Both functions are straight-line code around a few calls, so each has
    finitely many shapes of run.  [ResolverRun] and [HandlerRun] list them;
    [getOctokitOptionsForOrg_run] and [handler_run] below show that every
    run has one of these shapes. *)

Section RunShapes.

Variable platform : Platform.t.

(** The options the resolver builds around a token. *)
Definition octokitOptionsFor (auth : string) (cfg : IntegrationConfig.t)
  : OctokitOptions.t :=
  {| OctokitOptions.auth := auth;
     OctokitOptions.baseUrl := IntegrationConfig.apiBaseUrl cfg;
     OctokitOptions.previews := ["nebula-preview"];
     OctokitOptions.request_timeout := 60000%Z |}.

(** The organization-only URL of the credential request. *)
Definition credentialsUrl (host owner : string) : string :=
  ("https://" ++ host ++ "/" ++ Js.encodeURIComponent owner)%string.

(** The provider the resolver turns to. *)
Definition providerOf (options : ResolverOptions)
  : GithubCredentialsProvider.t :=
  match credentialsProvider options with
  | Some p => p
  | None =>
      Platform.DefaultGithubCredentialsProvider_fromIntegrations
        platform (integrations options)
  end.

(** [ResolverRun options tr outcome evs]: started after [tr], the resolver
    ends with [outcome] and leaves the events [evs]. *)
Inductive ResolverRun (options : ResolverOptions) (tr : Trace)
  : Outcome OctokitOptions.t -> Trace -> Prop :=
| NoIntegration :
    ScmIntegrationRegistry.github_byHost (integrations options) (host options)
    = None ->
    ResolverRun options tr
      (Threw (Js.newInputError
                ("No integration for host " ++ host options)%string))
      [ByHost (host options)]
| ExplicitToken cfg t :
    ScmIntegrationRegistry.github_byHost (integrations options) (host options)
    = Some cfg ->
    token options = Some t -> t <> ""%string ->
    ResolverRun options tr (Returned (octokitOptionsFor t cfg))
      [ByHost (host options)]
| NoOwner cfg :
    ScmIntegrationRegistry.github_byHost (integrations options) (host options)
    = Some cfg ->
    Js.truthy (token options) = false ->
    owner options = ""%string ->
    ResolverRun options tr
      (Threw (Js.newInputError
         "No organization/owner provided, which is required for GitHub App authentication"))
      [ByHost (host options)]
| Requested cfg made r outcome :
    ScmIntegrationRegistry.github_byHost (integrations options) (host options)
    = Some cfg ->
    Js.truthy (token options) = false ->
    owner options <> ""%string ->
    (* the default provider is built only when none was injected *)
    made = match credentialsProvider options with
           | Some _ => []
           | None => [FromIntegrations]
           end ->
    r = GithubCredentialsProvider.getCredentials
          (match credentialsProvider options with
           | Some p => p
           | None =>
               Platform.DefaultGithubCredentialsProvider_fromIntegrations
                 platform (integrations options)
           end)
          (tr ++ ByHost (host options) :: made)
          (credentialsUrl (host options) (owner options)) ->
    outcome =
      match r with
      | inl e => Threw e
      | inr credentials =>
          match Credentials.token credentials with
          | Some t =>
              if (t =? "")%string then
                Threw (Js.newInputError
                  ("No token available for host: " ++ host options
                   ++ ", with owner " ++ owner options
                   ++ ". Make sure GitHub App is installed on the organization.")%string)
              else Returned (octokitOptionsFor t cfg)
          | None =>
              Threw (Js.newInputError
                ("No token available for host: " ++ host options
                 ++ ", with owner " ++ owner options
                 ++ ". Make sure GitHub App is installed on the organization.")%string)
          end
      end ->
    ResolverRun options tr outcome
      (ByHost (host options) :: made
       ++ [GetCredentials (credentialsUrl (host options) (owner options)) r]).

(** The arguments the handler passes on. *)
Definition resolverOptionsOf (options : ActionOptions) (input : Input.t)
  (organization : string) : ResolverOptions :=
  {| integrations := action_integrations options;
     credentialsProvider := githubCredentialsProvider options;
     token := Input.token input;
     host := "github.com";
     owner := organization |}.

Definition createParamsOf (input : Input.t) (organization : string)
  : CreateParams.t :=
  {| CreateParams.org := organization;
     CreateParams.name := Input.teamName input;
     CreateParams.description := Input.description input;
     CreateParams.privacy := orDefault (Input.privacy input) Privacy.closed |}.

(** The five outputs, in the order the handler sets them. *)
Definition outputsOf (team : Team.t) (calls : list (MembershipParams.t * Settled unit))
  : list (string * OutputValue) :=
  [("teamId", OutNumber (Team.id team));
   ("teamUrl", OutString (Team.html_url team));
   ("teamSlug", OutString (Team.slug team));
   ("membersAdded", OutAdded (addedOf calls));
   ("membersFailed", OutFailed (failedOf calls))].

(** [HandlerRun options input outcome trace]: the four ways an invocation
    goes.  [pre] stands for the log lines written before the resolver is
    called. *)
Inductive HandlerRun (options : ActionOptions) (input : Input.t)
  : Outcome unit -> Trace -> Prop :=
| Invalid text :
    Js.truthy (Input.organization input) = false ->
    HandlerRun options input
      (Threw (Js.newError "Organization name is required but was not provided"))
      [Log LogLevel.info text]
| AuthenticationFailed organization pre evs e text :
    Input.organization input = Some organization ->
    organization <> ""%string ->
    Forall logEvent pre ->
    ResolverRun (resolverOptionsOf options input organization) pre (Threw e) evs ->
    HandlerRun options input
      (Threw (Js.newError
         ("Failed to authenticate with GitHub for organization '"
          ++ organization ++ "': " ++ Js.errorMessage e)%string))
      (pre ++ evs ++ [Log LogLevel.error text])
| CreationFailed organization pre evs octokitOptions before e t1 t2 t3 :
    Input.organization input = Some organization ->
    organization <> ""%string ->
    Forall logEvent pre ->
    ResolverRun (resolverOptionsOf options input organization) pre
      (Returned octokitOptions) evs ->
    before = pre ++ evs ++ [Log LogLevel.info t1; NewOctokit octokitOptions;
                            Log LogLevel.info t2] ->
    OctokitClient.teams_create (Platform.Octokit platform octokitOptions)
      before (createParamsOf input organization) = inl e ->
    HandlerRun options input
      (Threw (Js.newError
         ("GitHub team creation failed: " ++ Js.errorMessage e)%string))
      (before ++ [TeamsCreate (createParamsOf input organization) (inl e);
                  Log LogLevel.error t3])
| Completed organization pre evs octokitOptions before team loop t1 t2 t3 t4 :
    Input.organization input = Some organization ->
    organization <> ""%string ->
    Forall logEvent pre ->
    ResolverRun (resolverOptionsOf options input organization) pre
      (Returned octokitOptions) evs ->
    before = pre ++ evs ++ [Log LogLevel.info t1; NewOctokit octokitOptions;
                            Log LogLevel.info t2] ->
    OctokitClient.teams_create (Platform.Octokit platform octokitOptions)
      before (createParamsOf input organization) = inr team ->
    Forall loopEvent loop ->
    map fst (membershipCalls loop)
    = map (membershipParams organization team)
          (orDefault (Input.members input) []) ->
    HandlerRun options input (Returned tt)
      (before
       ++ [TeamsCreate (createParamsOf input organization) (inr team);
           Log LogLevel.info t3]
       ++ loop
       ++ map (fun kv => Output (fst kv) (snd kv))
              (outputsOf team (membershipCalls loop))
       ++ [Log LogLevel.info t4]).

End RunShapes.

(** ** Scenarios

    Concrete collaborators and inputs, after the mocks of
    [githubTeam.test.ts]. *)

Module Scenario.

Definition githubCom : IntegrationConfig.t :=
  {| IntegrationConfig.host := "github.com";
     IntegrationConfig.apiBaseUrl := Some "https://api.github.com"%string;
     IntegrationConfig.token := None |}.

Definition mockIntegrations : ScmIntegrationRegistry.t :=
  {| ScmIntegrationRegistry.github_byHost := fun _ => Some githubCom |}.

Definition noIntegrations : ScmIntegrationRegistry.t :=
  {| ScmIntegrationRegistry.github_byHost := fun _ => None |}.

Definition mockCredentialsProvider : GithubCredentialsProvider.t :=
  {| GithubCredentialsProvider.getCredentials := fun _ _ =>
       inr {| Credentials.token := Some "mock-github-token"%string |} |}.

Definition failingCredentialsProvider : GithubCredentialsProvider.t :=
  {| GithubCredentialsProvider.getCredentials := fun _ _ =>
       inl (Js.newError "GitHub App not installed on organization") |}.

(** The remote service turns the name ["Test Team"] into the slug
    ["test-team"]. *)
Definition createdTeam : Team.t :=
  {| Team.id := 12345;
     Team.name := "Test Team";
     Team.slug := "test-team";
     Team.html_url := "https://github.com/orgs/test-org/teams/test-team" |}.

(** Creates the team; rejects the membership of ["invaliduser"]. *)
Definition mockOctokit : OctokitClient.t :=
  {| OctokitClient.teams_create := fun _ _ => inr createdTeam;
     OctokitClient.teams_addOrUpdateMembershipForUserInOrg := fun _ p =>
       if (MembershipParams.username p =? "invaliduser")%string
       then inl (Js.newError "User not found")
       else inr tt |}.

(** Refuses to create the team. *)
Definition rejectingOctokit : OctokitClient.t :=
  {| OctokitClient.teams_create := fun _ _ =>
       inl (Js.newError "Validation Failed: Name must be unique for this org");
     OctokitClient.teams_addOrUpdateMembershipForUserInOrg := fun _ _ => inr tt |}.

Definition platform : Platform.t :=
  {| Platform.DefaultGithubCredentialsProvider_fromIntegrations := fun _ =>
       mockCredentialsProvider;
     Platform.Octokit := fun _ => mockOctokit |}.

Definition rejectingPlatform : Platform.t :=
  {| Platform.DefaultGithubCredentialsProvider_fromIntegrations := fun _ =>
       mockCredentialsProvider;
     Platform.Octokit := fun _ => rejectingOctokit |}.

Definition options : ActionOptions :=
  {| action_integrations := mockIntegrations;
     githubCredentialsProvider := Some mockCredentialsProvider |}.

Definition optionsFailingProvider : ActionOptions :=
  {| action_integrations := mockIntegrations;
     githubCredentialsProvider := Some failingCredentialsProvider |}.

Definition optionsNoIntegration : ActionOptions :=
  {| action_integrations := noIntegrations;
     githubCredentialsProvider := Some mockCredentialsProvider |}.

Definition basicInput : Input.t :=
  {| Input.organization := Some "test-org"%string;
     Input.teamName := "Test Team";
     Input.description := Some "Test team"%string;
     Input.privacy := Some Privacy.closed;
     Input.members := None;
     Input.token := None |}.

Definition withMembers (members : list MemberSpec.t) : Input.t :=
  {| Input.organization := Input.organization basicInput;
     Input.teamName := Input.teamName basicInput;
     Input.description := Input.description basicInput;
     Input.privacy := Input.privacy basicInput;
     Input.members := Some members;
     Input.token := Input.token basicInput |}.

Definition withToken (token : option string) : Input.t :=
  {| Input.organization := Input.organization basicInput;
     Input.teamName := Input.teamName basicInput;
     Input.description := Input.description basicInput;
     Input.privacy := Input.privacy basicInput;
     Input.members := Input.members basicInput;
     Input.token := token |}.

Definition withoutOrganization : Input.t :=
  {| Input.organization := None;
     Input.teamName := "Test Team";
     Input.description := Some "Test team"%string;
     Input.privacy := None;
     Input.members := None;
     Input.token := None |}.

Definition validuser : MemberSpec.t :=
  {| MemberSpec.username := "validuser"; MemberSpec.role := Some Role.member |}.
Definition invaliduser : MemberSpec.t :=
  {| MemberSpec.username := "invaliduser";
     MemberSpec.role := Some Role.maintainer |}.
Definition user1 : MemberSpec.t :=
  {| MemberSpec.username := "user1"; MemberSpec.role := None |}.

Definition mixedInput : Input.t := withMembers [validuser; invaliduser; user1].

(** The same user listed twice. *)
Definition duplicateInput : Input.t := withMembers [user1; user1].

End Scenario.

(** ** The module that registers the action

    [src/module.ts]: [init] reads the integrations from the configuration,
    builds the default credentials provider from them and adds the action
    made with both to the scaffolder's actions. *)

(** Calls of [DefaultGithubCredentialsProvider.fromIntegrations] made
    during an invocation. *)
Definition fromIntegrationsCalls (tr : Trace) : list unit :=
  flat_map (fun ev => match ev with FromIntegrations => [tt] | _ => [] end) tr.

Section ScaffolderModule.

Variable platform : Platform.t.

(** The root configuration and [ScmIntegrations.fromConfig]. *)
Variable Config : Type.
Variable ScmIntegrations_fromConfig : Config -> ScmIntegrationRegistry.t.

(** What [init] hands to [createGithubTeamCreateAction]. *)
Definition scaffolderModule_options (config : Config) : ActionOptions :=
  let integrations := ScmIntegrations_fromConfig config in
  let githubCredentialsProvider :=
    Platform.DefaultGithubCredentialsProvider_fromIntegrations
      platform integrations in
  {| action_integrations := integrations;
     githubCredentialsProvider := Some githubCredentialsProvider |}.

(** [init({ scaffolderActions, config })]: [scaffolderActions.addActions]
    appends to the actions registered so far. *)
Definition scaffolderModule_init (scaffolderActions : list TemplateAction.t)
  (config : Config) : list TemplateAction.t :=
  scaffolderActions
  ++ [createGithubTeamCreateAction platform (scaffolderModule_options config)].

End ScaffolderModule.

(** ** The earlier action of the [github-teams] plugin

    [plugins/github-teams/src/actions/githubTeamCreate.ts]: the same input,
    no credentials provider, no validation of the organization, no report on
    the members, three outputs.  It has its own events, as its client is
    built from a token alone and its calls carry [input.organization] as it
    is. *)

Module Legacy.

(** Parameters of [octokit.rest.teams.create]. *)
Module CreateParams.
Record t := mk {
  org : option string;
  name : string;
  description : option string;
  privacy : Privacy.t
}.
End CreateParams.

(** Parameters of [octokit.rest.teams.addOrUpdateMembershipForUserInOrg]. *)
Module MembershipParams.
Record t := mk {
  org : option string;
  team_slug : string;
  username : string;
  role : Role.t
}.
End MembershipParams.

Inductive Event :=
| Log (level : LogLevel.t) (text : string)
| ByHost (host : string)
| NewOctokit (auth : string)
| TeamsCreate (p : CreateParams.t) (r : Settled Team.t)
| AddOrUpdateMembership (p : MembershipParams.t) (r : Settled unit)
| Output (key : string) (v : OutputValue).

Definition Trace := list Event.

Module OctokitClient.
Record t := mk {
  teams_create : Trace -> CreateParams.t -> Settled Team.t;
  teams_addOrUpdateMembershipForUserInOrg :
    Trace -> MembershipParams.t -> Settled unit
}.
End OctokitClient.

(** [new Octokit({ auth: token })] *)
Definition OctokitConstructor : Type := string -> OctokitClient.t.

Definition Eff (A : Type) : Type := Trace -> Outcome A * Trace.

Definition ret {A} (a : A) : Eff A := fun tr => (Returned a, tr).

Definition throw {A} (e : Js.Thrown) : Eff A := fun tr => (Threw e, tr).

Definition bind {A B} (c : Eff A) (k : A -> Eff B) : Eff B :=
  fun tr =>
    match c tr with
    | (Returned a, tr') => k a tr'
    | (Threw e, tr') => (Threw e, tr')
    end.

Definition tryCatch {A} (body : Eff A) (handler : Js.Thrown -> Eff A) : Eff A :=
  fun tr =>
    match body tr with
    | (Returned a, tr') => (Returned a, tr')
    | (Threw e, tr') => handler e tr'
    end.

Definition emit (ev : Event) : Eff unit :=
  fun tr => (Returned tt, (tr ++ [ev])%list).

Definition await {A} (respond : Trace -> Settled A) (ev : Settled A -> Event)
  : Eff A :=
  fun tr =>
    let r := respond tr in
    (match r with inl e => Threw e | inr a => Returned a end,
     (tr ++ [ev r])%list).

Declare Scope legacy_scope.
Delimit Scope legacy_scope with legacy.
Notation "x <- c ;; k" := (bind c (fun x => k))
  (at level 61, c at next level, right associativity) : legacy_scope.
Notation "c ;; k" := (bind c (fun _ => k))
  (at level 61, right associativity) : legacy_scope.
Local Open Scope string_scope.
Local Open Scope legacy_scope.

Definition logger_info (text : string) : Eff unit := emit (Log LogLevel.info text).
Definition logger_warn (text : string) : Eff unit := emit (Log LogLevel.warn text).
Definition logger_error (text : string) : Eff unit := emit (Log LogLevel.error text).

Definition output (key : string) (v : OutputValue) : Eff unit :=
  emit (Output key v).

Section Action.

Variable Octokit : OctokitConstructor.

(** [integrations.github.byHost(host)] *)
Definition byHost (integrations : ScmIntegrationRegistry.t) (host : string)
  : Eff (option IntegrationConfig.t) :=
  emit (ByHost host) ;;
  ret (ScmIntegrationRegistry.github_byHost integrations host).

Definition newOctokit (token : string) : Eff OctokitClient.t :=
  emit (NewOctokit token) ;;
  ret (Octokit token).

Definition teams_create (octokit : OctokitClient.t) (p : CreateParams.t)
  : Eff Team.t :=
  await (fun tr => OctokitClient.teams_create octokit tr p) (TeamsCreate p).

Definition teams_addOrUpdateMembershipForUserInOrg (octokit : OctokitClient.t)
  (p : MembershipParams.t) : Eff unit :=
  await (fun tr =>
           OctokitClient.teams_addOrUpdateMembershipForUserInOrg octokit tr p)
        (AddOrUpdateMembership p).

(** One turn of [for (const member of input.members)]. *)
Definition addMember (octokit : OctokitClient.t) (organization : option string)
  (team : Team.t) (member : MemberSpec.t) : Eff unit :=
  let role := orDefault (MemberSpec.role member) Role.member in
  tryCatch
    (teams_addOrUpdateMembershipForUserInOrg octokit
       {| MembershipParams.org := organization;
          MembershipParams.team_slug := Team.slug team;
          MembershipParams.username := MemberSpec.username member;
          MembershipParams.role := role |} ;;
     logger_info ("Added " ++ MemberSpec.username member ++ " as "
                  ++ Role.str role))
    (fun error =>
       (* Continue with other members rather than failing completely *)
       logger_warn ("Failed to add member " ++ MemberSpec.username member
                    ++ ": " ++ Js.toString error)).

Fixpoint addMembers (octokit : OctokitClient.t) (organization : option string)
  (team : Team.t) (members : list MemberSpec.t) : Eff unit :=
  match members with
  | [] => ret tt
  | member :: rest =>
      addMember octokit organization team member ;;
      addMembers octokit organization team rest
  end.

(** The block [if (input.members && input.members.length > 0) { ... }]. *)
Definition provisionMembers (octokit : OctokitClient.t)
  (organization : option string) (team : Team.t)
  (members : option (list MemberSpec.t)) : Eff unit :=
  match members with
  | None => ret tt
  | Some members =>
      if negb (Nat.ltb 0 (length members)) then ret tt
      else
        logger_info ("Adding " ++ Js.templateLength (length members)
                     ++ " members to the team") ;;
        addMembers octokit organization team members
  end.

Definition handler (integrations : ScmIntegrationRegistry.t) (input : Input.t)
  : Eff unit :=
  logger_info ("Creating GitHub team: " ++ Input.teamName input
               ++ " in organization: " ++ Js.template (Input.organization input)) ;;
  (* Get GitHub integration config *)
  githubIntegration <- byHost integrations "github.com" ;;
  match githubIntegration with
  | None => throw (Js.newError "GitHub integration not configured")
  | Some githubIntegration =>
      (* Use provided token or fall back to integration config *)
      let token :=
        if Js.truthy (Input.token input) then Input.token input
        else IntegrationConfig.token githubIntegration in
      if negb (Js.truthy token) then
        throw (Js.newError
                 "GitHub token not provided and not configured in integration")
      else
        (* Create Octokit client *)
        octokit <- newOctokit (orDefault token "") ;;
        tryCatch
          ((* Create the team *)
           logger_info ("Creating team with privacy: "
                        ++ Privacy.str
                             (orDefault (Input.privacy input) Privacy.closed)) ;;
           team <-
             teams_create octokit
               {| CreateParams.org := Input.organization input;
                  CreateParams.name := Input.teamName input;
                  CreateParams.description := Input.description input;
                  CreateParams.privacy :=
                    orDefault (Input.privacy input) Privacy.closed |} ;;
           logger_info ("Team created successfully: " ++ Team.name team
                        ++ " (ID: " ++ Js.templateNumber (Team.id team) ++ ")") ;;
           (* Add members to the team if provided *)
           provisionMembers octokit (Input.organization input) team
             (Input.members input) ;;
           (* Set outputs *)
           output "teamId" (OutNumber (Team.id team)) ;;
           output "teamUrl" (OutString (Team.html_url team)) ;;
           output "teamSlug" (OutString (Team.slug team)) ;;
           logger_info "GitHub team creation completed successfully")
          (fun error =>
             logger_error ("Failed to create GitHub team: " ++ Js.toString error) ;;
             throw (Js.newError
               ("GitHub team creation failed: " ++ Js.errorMessage error)))
  end.

End Action.

(** The invocation starts from an empty history. *)
Definition outcomeOf {A} (c : Eff A) : Outcome A := fst (c []).
Definition traceOf {A} (c : Eff A) : Trace := snd (c []).

(** The calls of each kind, in order. *)
Definition byHostCalls (tr : Trace) : list string :=
  flat_map (fun ev => match ev with ByHost h => [h] | _ => [] end) tr.

Definition octokitClients (tr : Trace) : list string :=
  flat_map (fun ev => match ev with NewOctokit a => [a] | _ => [] end) tr.

Definition teamsCreateCalls (tr : Trace)
  : list (CreateParams.t * Settled Team.t) :=
  flat_map (fun ev => match ev with TeamsCreate p r => [(p, r)] | _ => [] end) tr.

Definition membershipCalls (tr : Trace)
  : list (MembershipParams.t * Settled unit) :=
  flat_map (fun ev =>
              match ev with AddOrUpdateMembership p r => [(p, r)] | _ => [] end) tr.

Definition outputs (tr : Trace) : list (string * OutputValue) :=
  flat_map (fun ev => match ev with Output k v => [(k, v)] | _ => [] end) tr.

(** The token the action authenticates with:
    [input.token || githubIntegration.config.token]. *)
Definition tokenFor (input : Input.t) (cfg : IntegrationConfig.t)
  : option string :=
  if Js.truthy (Input.token input) then Input.token input
  else IntegrationConfig.token cfg.

Definition createParamsOf (input : Input.t) : CreateParams.t :=
  {| CreateParams.org := Input.organization input;
     CreateParams.name := Input.teamName input;
     CreateParams.description := Input.description input;
     CreateParams.privacy := orDefault (Input.privacy input) Privacy.closed |}.

Definition membershipParams (input : Input.t) (team : Team.t)
  (member : MemberSpec.t) : MembershipParams.t :=
  {| MembershipParams.org := Input.organization input;
     MembershipParams.team_slug := Team.slug team;
     MembershipParams.username := MemberSpec.username member;
     MembershipParams.role := orDefault (MemberSpec.role member) Role.member |}.

Definition loopEvent (ev : Event) : Prop :=
  match ev with
  | Log _ _ | AddOrUpdateMembership _ _ => True
  | _ => False
  end.

(** The ways an invocation goes. *)
Inductive HandlerRun (Octokit : OctokitConstructor)
  (integrations : ScmIntegrationRegistry.t) (input : Input.t)
  : Outcome unit -> Trace -> Prop :=
| NotConfigured t0 :
    ScmIntegrationRegistry.github_byHost integrations "github.com" = None ->
    HandlerRun Octokit integrations input
      (Threw (Js.newError "GitHub integration not configured"))
      [Log LogLevel.info t0; ByHost "github.com"]
| NoToken cfg t0 :
    ScmIntegrationRegistry.github_byHost integrations "github.com" = Some cfg ->
    Js.truthy (tokenFor input cfg) = false ->
    HandlerRun Octokit integrations input
      (Threw (Js.newError
                "GitHub token not provided and not configured in integration"))
      [Log LogLevel.info t0; ByHost "github.com"]
| CreationFailed cfg token e t0 t1 t2 :
    ScmIntegrationRegistry.github_byHost integrations "github.com" = Some cfg ->
    tokenFor input cfg = Some token -> token <> "" ->
    HandlerRun Octokit integrations input
      (Threw (Js.newError
                ("GitHub team creation failed: " ++ Js.errorMessage e)))
      [Log LogLevel.info t0; ByHost "github.com"; NewOctokit token;
       Log LogLevel.info t1; TeamsCreate (createParamsOf input) (inl e);
       Log LogLevel.error t2]
| Completed cfg token team loop t0 t1 t2 t3 :
    ScmIntegrationRegistry.github_byHost integrations "github.com" = Some cfg ->
    tokenFor input cfg = Some token -> token <> "" ->
    Forall loopEvent loop ->
    map fst (membershipCalls loop)
    = map (membershipParams input team) (orDefault (Input.members input) []) ->
    HandlerRun Octokit integrations input (Returned tt)
      ([Log LogLevel.info t0; ByHost "github.com"; NewOctokit token;
        Log LogLevel.info t1; TeamsCreate (createParamsOf input) (inr team);
        Log LogLevel.info t2]
       ++ loop
       ++ [Output "teamId" (OutNumber (Team.id team));
           Output "teamUrl" (OutString (Team.html_url team));
           Output "teamSlug" (OutString (Team.slug team));
           Log LogLevel.info t3])%list.

End Legacy.

(** Collaborators and inputs for the earlier action. *)
Module LegacyScenario.

(** An integration that carries a token of its own. *)
Definition githubComWithToken : IntegrationConfig.t :=
  {| IntegrationConfig.host := "github.com";
     IntegrationConfig.apiBaseUrl := Some "https://api.github.com"%string;
     IntegrationConfig.token := Some "integration-token"%string |}.

Definition integrationsWithToken : ScmIntegrationRegistry.t :=
  {| ScmIntegrationRegistry.github_byHost := fun _ => Some githubComWithToken |}.

(** Creates the team; rejects the membership of ["invaliduser"]. *)
Definition mockOctokit : Legacy.OctokitClient.t :=
  {| Legacy.OctokitClient.teams_create := fun _ _ => inr Scenario.createdTeam;
     Legacy.OctokitClient.teams_addOrUpdateMembershipForUserInOrg := fun _ p =>
       if (Legacy.MembershipParams.username p =? "invaliduser")%string
       then inl (Js.newError "User not found")
       else inr tt |}.

Definition rejectingOctokit : Legacy.OctokitClient.t :=
  {| Legacy.OctokitClient.teams_create := fun _ _ =>
       inl (Js.newError "Validation Failed: Name must be unique for this org");
     Legacy.OctokitClient.teams_addOrUpdateMembershipForUserInOrg :=
       fun _ _ => inr tt |}.

Definition Octokit : Legacy.OctokitConstructor := fun _ => mockOctokit.
Definition rejectingOctokitConstructor : Legacy.OctokitConstructor :=
  fun _ => rejectingOctokit.

End LegacyScenario.

(** Further collaborators for the scaffolder action. *)
Module MoreScenarios.

(** A provider that answers without a token. *)
Definition emptyHandedProvider : GithubCredentialsProvider.t :=
  {| GithubCredentialsProvider.getCredentials := fun _ _ =>
       inr {| Credentials.token := None |} |}.

Definition optionsEmptyHanded : ActionOptions :=
  {| action_integrations := Scenario.mockIntegrations;
     githubCredentialsProvider := Some emptyHandedProvider |}.


(** The resolver called with an empty owner and no token. *)
Definition resolverNoOwner : ResolverOptions :=
  {| integrations := Scenario.mockIntegrations;
     credentialsProvider := Some Scenario.mockCredentialsProvider;
     token := None;
     host := "github.com";
     owner := "" |}.

End MoreScenarios.

(** * Proofs *)

(** ** The JavaScript helpers on examples *)

Example encodeURIComponent_plain :
  Js.encodeURIComponent "test-org" = "test-org".
Proof. reflexivity. Qed.

Example encodeURIComponent_reserved :
  Js.encodeURIComponent "a/b c@d" = "a%2Fb%20c%40d".
Proof. reflexivity. Qed.

Example toString_error :
  Js.toString (Js.newError "User not found") = "Error: User not found".
Proof. reflexivity. Qed.

(** ** Facts on traces *)

Section TraceFacts.

Lemma byHostCalls_app tr1 tr2 :
  byHostCalls (tr1 ++ tr2) = (byHostCalls tr1 ++ byHostCalls tr2).
Proof. apply flat_map_app. Qed.

Lemma getCredentialsCalls_app tr1 tr2 :
  getCredentialsCalls (tr1 ++ tr2)
  = (getCredentialsCalls tr1 ++ getCredentialsCalls tr2).
Proof. apply flat_map_app. Qed.

Lemma octokitClients_app tr1 tr2 :
  octokitClients (tr1 ++ tr2) = (octokitClients tr1 ++ octokitClients tr2).
Proof. apply flat_map_app. Qed.

Lemma teamsCreateCalls_app tr1 tr2 :
  teamsCreateCalls (tr1 ++ tr2)
  = (teamsCreateCalls tr1 ++ teamsCreateCalls tr2).
Proof. apply flat_map_app. Qed.

Lemma membershipCalls_app tr1 tr2 :
  membershipCalls (tr1 ++ tr2)
  = (membershipCalls tr1 ++ membershipCalls tr2).
Proof. apply flat_map_app. Qed.

Lemma outputs_app tr1 tr2 :
  outputs (tr1 ++ tr2) = (outputs tr1 ++ outputs tr2).
Proof. apply flat_map_app. Qed.

Lemma addedOf_app c1 c2 : addedOf (c1 ++ c2) = (addedOf c1 ++ addedOf c2).
Proof. apply flat_map_app. Qed.

Lemma failedOf_app c1 c2 : failedOf (c1 ++ c2) = (failedOf c1 ++ failedOf c2).
Proof. apply flat_map_app. Qed.

(** Loop events carry no call of another kind. *)
Lemma loopEvents_other evs :
  Forall loopEvent evs ->
  byHostCalls evs = [] /\ getCredentialsCalls evs = []
  /\ octokitClients evs = [] /\ teamsCreateCalls evs = [] /\ outputs evs = [].
Proof.
  induction 1 as [|ev evs Hev _ IH]; [repeat split|].
  destruct ev; simpl in Hev; try contradiction; exact IH.
Qed.

Lemma logEvents_loopEvents evs : Forall logEvent evs -> Forall loopEvent evs.
Proof.
  apply Forall_impl. intros [] H; simpl in *; auto.
Qed.

Lemma logEvents_membershipCalls evs :
  Forall logEvent evs -> membershipCalls evs = [].
Proof.
  induction 1 as [|ev evs Hev _ IH]; [reflexivity|].
  destruct ev; simpl in Hev; try contradiction; exact IH.
Qed.

End TraceFacts.

(** ** The provisioning loop *)

Section Loop.

Variables (octokit : OctokitClient.t) (organization : string) (team : Team.t).

(** One turn: exactly one membership call, with the member's parameters,
    and one entry pushed on the side its answer selects. *)
Lemma addMember_run memberResults member tr :
  let p := membershipParams organization team member in
  let r := OctokitClient.teams_addOrUpdateMembershipForUserInOrg octokit tr p in
  exists text level,
    addMember octokit organization team memberResults member tr
    = (Returned
         {| MemberResults.added :=
              (MemberResults.added memberResults ++ addedOf [(p, r)]);
            MemberResults.failed :=
              (MemberResults.failed memberResults ++ failedOf [(p, r)]) |},
       (tr ++ [AddOrUpdateMembership p r; Log level text])).
Proof.
  intros p r. subst r p.
  unfold addMember, tryCatch, bind, teams_addOrUpdateMembershipForUserInOrg,
    await, logger_info, logger_warn, emit, ret, membershipParams.
  destruct (OctokitClient.teams_addOrUpdateMembershipForUserInOrg _ _ _)
    as [e|[]]; simpl.
  - do 2 eexists. rewrite <- app_assoc. simpl.
    unfold MemberResults.pushFailed. rewrite app_nil_r. reflexivity.
  - do 2 eexists. rewrite <- app_assoc. simpl.
    unfold MemberResults.pushAdded. rewrite app_nil_r. reflexivity.
Qed.

(** The whole loop never throws; it makes one call per member, in input
    order, and its results are the entries of those calls. *)
Lemma addMembers_run members :
  forall memberResults tr,
  exists evs,
    addMembers octokit organization team members memberResults tr
    = (Returned
         {| MemberResults.added :=
              (MemberResults.added memberResults
               ++ addedOf (membershipCalls evs));
            MemberResults.failed :=
              (MemberResults.failed memberResults
               ++ failedOf (membershipCalls evs)) |},
       (tr ++ evs))
    /\ map fst (membershipCalls evs)
       = map (membershipParams organization team) members
    /\ Forall loopEvent evs.
Proof.
  induction members as [|member rest IH]; intros memberResults tr.
  - exists []. simpl. unfold ret. rewrite !app_nil_r.
    destruct memberResults; auto.
  - destruct (addMember_run memberResults member tr) as (text & level & Hone).
    cbv zeta in Hone.
    set (p := membershipParams organization team member) in *.
    set (r := OctokitClient.teams_addOrUpdateMembershipForUserInOrg octokit tr p) in *.
    simpl addMembers. unfold bind at 1. rewrite Hone.
    match goal with
    | |- context [addMembers _ _ _ rest ?mr ?tr1] =>
        destruct (IH mr tr1) as (evs & Hrest & Hcalls & Hloop)
    end.
    exists (AddOrUpdateMembership p r :: Log level text :: evs).
    split; [|split].
    + rewrite Hrest. cbn [MemberResults.added MemberResults.failed].
      replace (membershipCalls
                 (AddOrUpdateMembership p r :: Log level text :: evs))
        with ([(p, r)] ++ membershipCalls evs) by reflexivity.
      rewrite addedOf_app, failedOf_app, <- !app_assoc. reflexivity.
    + simpl. rewrite Hcalls. reflexivity.
    + repeat constructor; assumption.
Qed.

(** The guarded block around the loop: the same facts, from an empty
    accumulator; an absent and an empty list make no call at all. *)
Lemma logSummary_run memberResults tr :
  exists logs,
    logSummary memberResults tr = (Returned tt, tr ++ logs)
    /\ Forall logEvent logs.
Proof.
  unfold logSummary, bind, logger_info, logger_warn, emit, ret.
  destruct (Nat.ltb 0 (length (MemberResults.added memberResults)));
    destruct (Nat.ltb 0 (length (MemberResults.failed memberResults)));
    rewrite <- ?app_assoc;
    first [ exists []; rewrite app_nil_r; split; [reflexivity|constructor]
          | eexists; split; [reflexivity|repeat constructor] ].
Qed.

Lemma provisionMembers_run members tr :
  exists evs,
    provisionMembers octokit organization team members tr
    = (Returned
         {| MemberResults.added := addedOf (membershipCalls evs);
            MemberResults.failed := failedOf (membershipCalls evs) |},
       tr ++ evs)
    /\ map fst (membershipCalls evs)
       = map (membershipParams organization team) (orDefault members [])
    /\ Forall loopEvent evs.
Proof.
  unfold provisionMembers.
  destruct members as [[|member rest]|]; simpl orDefault;
    try solve [exists []; unfold ret; simpl; rewrite app_nil_r; auto].
  set (members := member :: rest).
  replace (negb (Nat.ltb 0 (length members))) with false by reflexivity.
  cbv iota. unfold bind at 1. unfold logger_info at 1. unfold emit at 1.
  cbv beta iota. unfold bind at 1.
  match goal with
  | |- context [addMembers _ _ _ members ?mr ?tr1] =>
      destruct (addMembers_run members mr tr1) as (evs & Hloop & Hcalls & Hevs)
  end.
  rewrite Hloop. cbn [MemberResults.added MemberResults.failed app].
  unfold bind at 1.
  match goal with
  | |- context [logSummary ?mr ?tr1] =>
      destruct (logSummary_run mr tr1) as (logs & Hsum & Hlogs)
  end.
  rewrite Hsum. unfold ret.
  match goal with
  | |- context [Log LogLevel.info ?t :: nil] =>
      exists (Log LogLevel.info t :: evs ++ logs)
  end.
  assert (Hsame : membershipCalls (evs ++ logs) = membershipCalls evs).
  { rewrite membershipCalls_app, (logEvents_membershipCalls Hlogs).
    apply app_nil_r. }
  split; [|split].
  - change (membershipCalls (Log LogLevel.info ?t :: evs ++ logs))
      with (membershipCalls (evs ++ logs)).
    rewrite Hsame, <- !app_assoc. reflexivity.
  - change (membershipCalls (Log LogLevel.info ?t :: evs ++ logs))
      with (membershipCalls (evs ++ logs)).
    rewrite Hsame. exact Hcalls.
  - constructor; [exact I|]. apply Forall_app. split; [assumption|].
    now apply logEvents_loopEvents.
Qed.

End Loop.

(** ** Every run has one of the listed shapes *)

Section Runs.

Variable platform : Platform.t.

Lemma getOctokitOptionsForOrg_run options tr :
  exists outcome evs,
    getOctokitOptionsForOrg platform options tr = (outcome, tr ++ evs)
    /\ ResolverRun platform options tr outcome evs.
Proof.
  unfold getOctokitOptionsForOrg, byHost, bind, emit, ret, throw.
  cbv zeta.
  destruct (ScmIntegrationRegistry.github_byHost _ _) as [cfg|] eqn:Hcfg.
  2: { do 2 eexists. split; [reflexivity|]. now apply NoIntegration. }
  destruct (Js.truthy (token options)) eqn:Htoken.
  { destruct options as [ints prov [t|] h own]; simpl in *; [|discriminate].
    do 2 eexists. split; [reflexivity|].
    eapply ExplicitToken; eauto.
    intros ->. discriminate. }
  destruct (owner options =? "")%string eqn:Howner.
  { apply String.eqb_eq in Howner.
    do 2 eexists. split; [reflexivity|]. now apply NoOwner with cfg. }
  apply String.eqb_neq in Howner.
  unfold fromIntegrations, getCredentials, await, bind, emit, ret.
  fold (credentialsUrl (host options) (owner options)).
  do 2 eexists. split.
  2: { eapply Requested with (cfg := cfg); eauto. }
  destruct (credentialsProvider options) as [p|]; simpl;
    rewrite <- ?app_assoc; simpl;
    destruct (GithubCredentialsProvider.getCredentials _ _ _)
      as [e|[[t|]]]; simpl; try reflexivity;
    destruct (t =? "")%string; reflexivity.
Qed.

Lemma handler_run options input :
  exists outcome trace,
    run (handler platform options input) = (outcome, trace)
    /\ HandlerRun platform options input outcome trace.
Proof.
  unfold run, handler. cbv zeta.
  unfold bind at 1. unfold logger_info at 1. unfold emit at 1.
  cbv beta iota. rewrite app_nil_l.
  destruct (Js.truthy (Input.organization input)) eqn:Horg.
  2: { do 2 eexists. split; [reflexivity|]. now apply Invalid. }
  destruct (Input.organization input) as [organization|] eqn:Hsome;
    [|discriminate].
  assert (Hne : organization <> ""%string).
  { intros ->. discriminate. }
  cbn [negb orDefault].
  fold (resolverOptionsOf options input organization).
  fold (createParamsOf input organization).
  repeat (unfold bind at 1; unfold logger_info at 1; unfold emit at 1;
          cbv beta iota).
  unfold bind at 1. unfold tryCatch at 1. unfold bind at 1.
  match goal with
  | |- context [getOctokitOptionsForOrg platform ?o ?pre] =>
      destruct (getOctokitOptionsForOrg_run o pre)
        as (outcome & evs & Hres & Hrun);
      assert (Hpre : Forall logEvent pre) by (repeat constructor);
      set (pre0 := pre) in *
  end.
  rewrite Hres.
  destruct outcome as [octokitOptions|e].
  2: { unfold bind, logger_error, emit, throw.
       do 2 eexists. split; [rewrite <- app_assoc; reflexivity|].
       eapply AuthenticationFailed; eauto. }
  unfold ret at 1. cbv beta iota.
  unfold newOctokit, tryCatch, teams_create, await.
  repeat (unfold bind at 1; unfold emit at 1; unfold ret at 1; cbv beta iota zeta).
  unfold bind at 1. cbv beta iota zeta.
  match goal with
  | |- context [OctokitClient.teams_create _ ?tr0 _] =>
      assert (Hbefore : exists t1 t2,
                tr0 = pre0 ++ evs ++ [Log LogLevel.info t1;
                                      NewOctokit octokitOptions;
                                      Log LogLevel.info t2])
        by (do 2 eexists; rewrite <- !app_assoc; reflexivity);
      set (before := tr0) in *
  end.
  destruct Hbefore as (t1 & t2 & Hbefore).
  destruct (OctokitClient.teams_create _ before _) as [e|team] eqn:Hcreate.
  { unfold bind, logger_error, emit, throw.
    do 2 eexists. split; [rewrite <- app_assoc; reflexivity|].
    eapply CreationFailed; eauto. }
  unfold bind at 1. cbv beta iota. unfold bind at 1.
  match goal with
  | |- context [provisionMembers ?o ?org ?tm ?ms ?tr1] =>
      destruct (provisionMembers_run o org tm ms tr1)
        as (loop & Hprov & Hcalls & Hloop)
  end.
  rewrite Hprov.
  unfold bind, output, logger_info, emit.
  cbn [MemberResults.added MemberResults.failed].
  do 2 eexists. split.
  2: { eapply Completed with (loop := loop); eauto. }
  unfold outputsOf. cbn [map fst snd].
  rewrite <- !app_assoc. reflexivity.
Qed.

End Runs.

(** ** Calls made in each part of a run *)

Section Calls.

Variable platform : Platform.t.

Lemma logEvents_calls evs :
  Forall logEvent evs ->
  byHostCalls evs = [] /\ getCredentialsCalls evs = []
  /\ octokitClients evs = [] /\ teamsCreateCalls evs = []
  /\ membershipCalls evs = [] /\ outputs evs = [].
Proof.
  intros H.
  destruct (loopEvents_other (logEvents_loopEvents H)) as (? & ? & ? & ? & ?).
  pose proof (logEvents_membershipCalls H). auto 10.
Qed.

(** The resolver looks up its host once, asks for credentials at most once,
    at the organization-only URL, and makes no other call. *)
Lemma resolverRun_calls options tr outcome evs :
  ResolverRun platform options tr outcome evs ->
  byHostCalls evs = [host options]
  /\ octokitClients evs = [] /\ teamsCreateCalls evs = []
  /\ membershipCalls evs = [] /\ outputs evs = []
  /\ (getCredentialsCalls evs = []
      \/ exists r,
           getCredentialsCalls evs
           = [(credentialsUrl (host options) (owner options), r)]).
Proof.
  destruct 1; subst; try (simpl; auto 10; fail).
  unfold byHostCalls, octokitClients, teamsCreateCalls, membershipCalls,
    outputs, getCredentialsCalls.
  destruct (credentialsProvider options); simpl; eauto 10.
Qed.

(** With a non-empty explicit token no credentials are requested, and the
    options carry that token. *)
Lemma resolverRun_token options tr outcome evs t :
  ResolverRun platform options tr outcome evs ->
  token options = Some t -> t <> ""%string ->
  getCredentialsCalls evs = []
  /\ forall o, outcome = Returned o -> OctokitOptions.auth o = t.
Proof.
  intros Hrun Ht Hne.
  assert (Htruthy : Js.truthy (token options) = true).
  { rewrite Ht. simpl. apply String.eqb_neq in Hne. now rewrite Hne. }
  destruct Hrun; try congruence.
  - split; [reflexivity|discriminate].
  - split; [reflexivity|]. intros o [= <-]. simpl. congruence.
Qed.

(** A request for credentials that fails ends the resolver with what the
    provider threw. *)
Lemma resolverRun_rejected options tr outcome evs url e :
  ResolverRun platform options tr outcome evs ->
  In (url, inl e) (getCredentialsCalls evs) ->
  outcome = Threw e.
Proof.
  destruct 1; try (simpl; tauto).
  subst made. intros Hin.
  assert (Heq : (url, inl e)
                = (credentialsUrl (host options) (owner options), r)).
  { destruct (credentialsProvider options); simpl in Hin;
      destruct Hin as [Hin|[]]; now symmetry. }
  injection Heq as _ <-. assumption.
Qed.

(** Without an integration for the host, the resolver throws its
    [InputError] right after the lookup. *)
Lemma resolverRun_noIntegration options tr outcome evs :
  ResolverRun platform options tr outcome evs ->
  ScmIntegrationRegistry.github_byHost (integrations options) (host options)
  = None ->
  outcome = Threw (Js.newInputError
                     ("No integration for host " ++ host options)%string)
  /\ evs = [ByHost (host options)].
Proof.
  destruct 1; intros Hnone; try congruence. auto.
Qed.

Lemma In_byHostCalls h tr : In (ByHost h) tr -> In h (byHostCalls tr).
Proof.
  intros H. apply in_flat_map. exists (ByHost h). simpl. auto.
Qed.

Lemma In_getCredentialsCalls u r tr :
  In (GetCredentials u r) tr -> In (u, r) (getCredentialsCalls tr).
Proof.
  intros H. apply in_flat_map. exists (GetCredentials u r). simpl. auto.
Qed.

Lemma In_octokitClients o tr : In (NewOctokit o) tr -> In o (octokitClients tr).
Proof.
  intros H. apply in_flat_map. exists (NewOctokit o). simpl. auto.
Qed.

Lemma In_teamsCreateCalls p r tr :
  In (TeamsCreate p r) tr -> In (p, r) (teamsCreateCalls tr).
Proof.
  intros H. apply in_flat_map. exists (TeamsCreate p r). simpl. auto.
Qed.

Lemma In_membershipCalls p r tr :
  In (AddOrUpdateMembership p r) tr -> In (p, r) (membershipCalls tr).
Proof.
  intros H. apply in_flat_map. exists (AddOrUpdateMembership p r). simpl. auto.
Qed.

Lemma outputs_map kvs :
  outputs (map (fun kv => Output (fst kv) (snd kv)) kvs) = kvs.
Proof.
  induction kvs as [|[k v] kvs IH]; [reflexivity|].
  cbn [map fst snd]. unfold outputs in *. cbn [flat_map app].
  now rewrite IH.
Qed.

Lemma outputEvents_calls kvs :
  let evs := map (fun kv => Output (fst kv) (snd kv)) kvs in
  byHostCalls evs = [] /\ getCredentialsCalls evs = []
  /\ octokitClients evs = [] /\ teamsCreateCalls evs = []
  /\ membershipCalls evs = [].
Proof.
  induction kvs as [|[k v] kvs IH]; simpl; auto.
Qed.

End Calls.

Create Rewrite HintDb calls.
#[local] Hint Rewrite byHostCalls_app getCredentialsCalls_app octokitClients_app
  teamsCreateCalls_app membershipCalls_app outputs_app outputs_map : calls.

(** Splits an invocation into its four shapes and collects, for each part of
    the trace, the calls it holds. *)
Ltac handler_cases platform options input :=
  let outcome := fresh "outcome" in
  let trace := fresh "trace" in
  let Hrun := fresh "Hrun" in
  let Hshape := fresh "Hshape" in
  unfold outcomeOf, traceOf in *;
  destruct (handler_run platform options input)
    as (outcome & trace & Hrun & Hshape);
  rewrite Hrun in *; cbn [fst snd] in *;
  destruct Hshape
    as [ text Horg
       | org0 pre evs err text Horg Hne Hpre Hres
       | org0 pre evs octokitOptions before err t1 t2 t3
           Horg Hne Hpre Hres Hbefore Hcreate
       | org0 pre evs octokitOptions before team0 loop t1 t2 t3 t4
           Horg Hne Hpre Hres Hbefore Hcreate Hloop Hcalls ];
  try subst before;
  try (destruct (logEvents_calls Hpre)
        as (Hpre_h & Hpre_g & Hpre_o & Hpre_c & Hpre_m & Hpre_out));
  try (destruct (resolverRun_calls Hres)
        as (Hres_h & Hres_o & Hres_c & Hres_m & Hres_out & Hres_g));
  try (destruct (loopEvents_other Hloop)
        as (Hloop_h & Hloop_g & Hloop_o & Hloop_c & Hloop_out);
       destruct (outputEvents_calls (outputsOf team0 (membershipCalls loop)))
        as (Hout_h & Hout_g & Hout_o & Hout_c & Hout_m)).

Ltac calls_cbn :=
  cbn [byHostCalls getCredentialsCalls octokitClients teamsCreateCalls
       membershipCalls outputs flat_map app] in *.

Ltac calls_simpl :=
  autorewrite with calls in *; calls_cbn;
  repeat match goal with
         | H : ?f ?l = _ |- _ => rewrite H in *
         end;
  calls_cbn; rewrite ?app_nil_r in *.

(** ** The two result lists partition the calls *)

Section Partition.

  Implicit Types calls : list (MembershipParams.t * Settled unit).

Lemma results_length calls :
  length (addedOf calls) + length (failedOf calls) = length calls.
Proof.
  induction calls as [|[p [e|u]] calls IH]; simpl; lia.
Qed.

Lemma results_interleave calls :
  Interleave (map Added.username (addedOf calls))
             (map Failed.username (failedOf calls))
             (calledUsernames calls).
Proof.
  induction calls as [|[p [e|u]] calls IH]; simpl.
  - constructor.
  - now apply Interleave_right.
  - now apply Interleave_left.
Qed.

Lemma Interleave_length {A} (l1 l2 l : list A) :
  Interleave l1 l2 l -> length l1 + length l2 = length l.
Proof.
  induction 1; simpl; lia.
Qed.

Lemma Interleave_occurrences u (l1 l2 l : list string) :
  Interleave l1 l2 l ->
  occurrences u l1 + occurrences u l2 = occurrences u l.
Proof.
  unfold occurrences.
  induction 1 as [|x l1 l2 l _ IH|x l1 l2 l _ IH]; simpl;
    try destruct (string_dec x u); lia.
Qed.

Lemma calledUsernames_members organization team members calls :
  map fst calls = map (membershipParams organization team) members ->
  calledUsernames calls = map MemberSpec.username members.
Proof.
  intros H. unfold calledUsernames.
  rewrite <- (map_map fst MembershipParams.username), H, map_map.
  reflexivity.
Qed.

End Partition.

(** Scenario 8 of the test suite: the second member is rejected, the first
    and the third are added. *)
Example mixed_results :
  outcomeOf (handler Scenario.platform Scenario.options Scenario.mixedInput)
  = Returned tt
  /\ outputs (traceOf (handler Scenario.platform Scenario.options
                         Scenario.mixedInput))
     = [("teamId", OutNumber 12345);
        ("teamUrl", OutString "https://github.com/orgs/test-org/teams/test-team");
        ("teamSlug", OutString "test-team");
        ("membersAdded",
         OutAdded [ {| Added.username := "validuser"; Added.role := Role.member |};
                    {| Added.username := "user1"; Added.role := Role.member |} ]);
        ("membersFailed",
         OutFailed [ {| Failed.username := "invaliduser";
                        Failed.role := Role.maintainer;
                        Failed.error := "User not found" |} ])].
Proof. split; reflexivity. Qed.

(** ** Auxiliary facts for the properties *)

Lemma failedOf_In calls p e :
  In (p, inl e) calls ->
  In {| Failed.username := MembershipParams.username p;
        Failed.role := MembershipParams.role p;
        Failed.error := Js.errorMessage e |} (failedOf calls).
Proof.
  intros H. apply in_flat_map. exists (p, inl e). simpl. auto.
Qed.

Lemma hexDigit_unreserved n : n < 16 -> Js.unreserved (Js.hexDigit n) = true.
Proof.
  intros H.
  do 16 (destruct n as [|n]; [reflexivity|]). lia.
Qed.

Lemma percentEncode_urlSafe c :
  forallb urlSafe (list_ascii_of_string (Js.percentEncode c)) = true.
Proof.
  unfold Js.percentEncode. cbn [list_ascii_of_string forallb].
  assert (Hc : nat_of_ascii c < 256) by apply nat_ascii_bounded.
  unfold urlSafe at 2 3.
  rewrite !hexDigit_unreserved.
  - reflexivity.
  - apply Nat.mod_upper_bound. discriminate.
  - apply Nat.Div0.div_lt_upper_bound. exact Hc.
Qed.

Lemma list_ascii_of_string_app s1 s2 :
  list_ascii_of_string (s1 ++ s2)%string
  = list_ascii_of_string s1 ++ list_ascii_of_string s2.
Proof.
  induction s1 as [|c s1 IH]; simpl; [reflexivity|]. now rewrite IH.
Qed.

(** The encoded organization holds no ["/"], ["@"], [":"], ["?"] or ["#"]:
    it stays one path segment of the URL. *)
Lemma encodeURIComponent_urlSafe s :
  forallb urlSafe (list_ascii_of_string (Js.encodeURIComponent s)) = true.
Proof.
  induction s as [|c s IH]; [reflexivity|].
  cbn [Js.encodeURIComponent].
  rewrite list_ascii_of_string_app, forallb_app, IH, andb_true_r.
  destruct (Js.unreserved c) eqn:Hc.
  - cbn [list_ascii_of_string forallb]. unfold urlSafe. now rewrite Hc.
  - apply percentEncode_urlSafe.
Qed.

(** ** Properties of the action *)

Section Properties.

Variable platform : Platform.t.
Variable options : ActionOptions.
Variable input : Input.t.

Local Abbreviation outcome := (outcomeOf (handler platform options input)).
Local Abbreviation trace := (traceOf (handler platform options input)).
Local Abbreviation members := (orDefault (Input.members input) []).

(** C1.  A membership call that fails does not make the handler throw:
    the invocation returns normally, the failure is an entry of the
    [membersFailed] output, with the member's username, role and the
    error's message, and the membership calls of the invocation are those
    of all the members of the input, in input order, on the team that was
    created. *)
Theorem member_failure_isolated p e :
  In (AddOrUpdateMembership p (inl e)) trace ->
  outcome = Returned tt
  /\ (exists failed,
        In ("membersFailed"%string, OutFailed failed) (outputs trace)
        /\ In {| Failed.username := MembershipParams.username p;
                 Failed.role := MembershipParams.role p;
                 Failed.error := Js.errorMessage e |} failed)
  /\ (exists organization team,
        Input.organization input = Some organization
        /\ In (TeamsCreate (createParamsOf input organization) (inr team)) trace
        /\ map fst (membershipCalls trace)
           = map (membershipParams organization team) members).
Proof.
  intros Hin. apply In_membershipCalls in Hin.
  handler_cases platform options input; calls_simpl;
    try (destruct Hin; fail).
  split; [reflexivity|]. split.
  - exists (failedOf (membershipCalls loop)). split.
    + unfold outputsOf. simpl. auto 10.
    + now apply failedOf_In.
  - exists org0, team0. split; [auto|]. split; [|auto].
    apply in_or_app. right. left. reflexivity.
Qed.

(** C2, as amended.  Once the team is created the five outputs are set,
    the two lists have together as many entries as the input has members,
    and their usernames are the usernames of the input dealt out over the
    two lists, each list in input order.  When the usernames of the input
    are pairwise distinct, each occurs once in all over both lists. *)
Theorem member_results_partition q team :
  In (TeamsCreate q (inr team)) trace ->
  exists added failed,
    outputs trace
    = [("teamId"%string, OutNumber (Team.id team));
       ("teamUrl"%string, OutString (Team.html_url team));
       ("teamSlug"%string, OutString (Team.slug team));
       ("membersAdded"%string, OutAdded added);
       ("membersFailed"%string, OutFailed failed)]
    /\ length added + length failed = length members
    /\ Interleave (map Added.username added) (map Failed.username failed)
                  (map MemberSpec.username members)
    /\ (NoDup (map MemberSpec.username members) ->
        eachUsernameOnce members added failed).
Proof.
  intros Hin. apply In_teamsCreateCalls in Hin.
  handler_cases platform options input; calls_simpl;
    try (destruct Hin; fail).
  { destruct Hin as [[=]|[]]. }
  destruct Hin as [[= _ <-]|[]].
  pose proof (calledUsernames_members _ _ _ _ Hcalls) as Hnames.
  pose proof (results_interleave (membershipCalls loop)) as Hinter.
  rewrite Hnames in Hinter.
  exists (addedOf (membershipCalls loop)), (failedOf (membershipCalls loop)).
  split; [reflexivity|]. split; [|split]; [| exact Hinter |].
  - rewrite results_length, <- (length_map fst), Hcalls, length_map.
    reflexivity.
  - intros Hnodup u Hu.
    rewrite (Interleave_occurrences u Hinter).
    apply (proj1 (NoDup_count_occ' string_dec _) Hnodup u Hu).
Qed.

(** C3.  When the create-team call fails with [e], no membership call is
    made and the handler throws an [Error] whose message is
    ["GitHub team creation failed: "] followed by the message of [e]
    (by ['Unknown error'] when [e] is not an instance of [Error]). *)
Theorem team_creation_failure p e :
  In (TeamsCreate p (inl e)) trace ->
  outcome
  = Threw (Js.newError
             ("GitHub team creation failed: " ++ Js.errorMessage e)%string)
  /\ membershipCalls trace = [].
Proof.
  intros Hin. apply In_teamsCreateCalls in Hin.
  handler_cases platform options input; calls_simpl;
    try (destruct Hin; fail).
  - destruct Hin as [[= _ <-]|[]]. split; reflexivity.
  - destruct Hin as [[=]|[]].
Qed.

(** C4, as amended.  With a token that is present and not empty, no
    credentials are requested, whether or not a provider is configured,
    and every client the invocation builds authenticates with that
    token. *)
Theorem explicit_token_skips_provider t :
  Input.token input = Some t ->
  t <> ""%string ->
  getCredentialsCalls trace = []
  /\ forall o, In o (octokitClients trace) -> OctokitOptions.auth o = t.
Proof.
  intros Ht Hne_t.
  handler_cases platform options input;
    try (destruct (resolverRun_token (t := t) Hres Ht Hne_t) as (Hnone & Hauth));
    calls_simpl.
  - split; [reflexivity|]. intros o [].
  - split; [reflexivity|]. intros o [].
  - split; [reflexivity|]. intros o [<-|[]]. now apply Hauth.
  - split; [reflexivity|]. intros o [<-|[]]. now apply Hauth.
Qed.

(** C5.  When [organization] is absent or empty the handler throws
    [Error("Organization name is required but was not provided")] and the
    invocation has made no integration lookup, no credential request, built
    no client and made no remote call. *)
Theorem missing_organization_rejected :
  Input.organization input = None
  \/ Input.organization input = Some ""%string ->
  outcome
  = Threw (Js.newError "Organization name is required but was not provided")
  /\ byHostCalls trace = []
  /\ getCredentialsCalls trace = []
  /\ octokitClients trace = []
  /\ teamsCreateCalls trace = []
  /\ membershipCalls trace = [].
Proof.
  intros Habsent.
  assert (Hfalsy : Js.truthy (Input.organization input) = false)
    by (destruct Habsent as [-> | ->]; reflexivity).
  handler_cases platform options input;
    try (rewrite Horg in Hfalsy; simpl in Hfalsy;
         apply String.eqb_neq in Hne; rewrite Hne in Hfalsy; discriminate).
  repeat split.
Qed.

(** C6.  When the request for credentials fails with [e], the handler
    throws a new [Error] whose message is
    ["Failed to authenticate with GitHub for organization '"], the
    organization, ["': "] and the message of [e] (['Unknown error'] when
    [e] is not an instance of [Error]); [e] itself does not reach the
    caller. *)
Theorem credential_failure_wrapped url e :
  In (GetCredentials url (inl e)) trace ->
  exists organization,
    Input.organization input = Some organization
    /\ outcome
       = Threw (Js.newError
                  ("Failed to authenticate with GitHub for organization '"
                   ++ organization ++ "': " ++ Js.errorMessage e)%string).
Proof.
  intros Hin. apply In_getCredentialsCalls in Hin.
  handler_cases platform options input; calls_simpl;
    try (destruct Hin; fail);
    pose proof (resolverRun_rejected _ _ Hres Hin) as Heq;
    try discriminate.
  injection Heq as ->. exists org0. auto.
Qed.

(** C7, as amended.  With an organization and no integration for
    [github.com], the invocation stops after the lookup: no credentials are
    requested, no client is built, no remote call is made.  The resolver's
    [InputError] is caught by the handler, which throws an [Error] with the
    authentication wording around the resolver's message. *)
Theorem missing_integration_wrapped organization :
  Input.organization input = Some organization ->
  organization <> ""%string ->
  ScmIntegrationRegistry.github_byHost (action_integrations options)
    "github.com" = None ->
  outcome
  = Threw (Js.newError
             ("Failed to authenticate with GitHub for organization '"
              ++ organization ++ "': No integration for host github.com")%string)
  /\ byHostCalls trace = ["github.com"%string]
  /\ getCredentialsCalls trace = []
  /\ octokitClients trace = []
  /\ teamsCreateCalls trace = []
  /\ membershipCalls trace = [].
Proof.
  intros Hsome Hne_o Hnone.
  handler_cases platform options input.
  - rewrite Hsome in Horg. simpl in Horg.
    apply String.eqb_neq in Hne_o. rewrite Hne_o in Horg. discriminate.
  - destruct (resolverRun_noIntegration Hres Hnone) as ([= ->] & ->).
    rewrite Hsome in Horg. injection Horg as <-.
    calls_simpl. repeat split.
  - destruct (resolverRun_noIntegration Hres Hnone) as ([=] & _).
  - destruct (resolverRun_noIntegration Hres Hnone) as ([=] & _).
Qed.

(** C8.  Every membership call of an invocation carries, as [team_slug],
    the slug of the team the create-team call returned. *)
Theorem membership_uses_created_slug q team p r :
  In (TeamsCreate q (inr team)) (traceOf (handler platform options input)) ->
  In (AddOrUpdateMembership p r) (traceOf (handler platform options input)) ->
  MembershipParams.team_slug p = Team.slug team.
Proof.
  intros Hcreated Hin.
  apply In_teamsCreateCalls in Hcreated. apply In_membershipCalls in Hin.
  handler_cases platform options input; calls_simpl;
    try (destruct Hin; fail).
  destruct Hcreated as [[= _ <-]|[]].
  apply (in_map fst) in Hin. cbn [fst] in Hin. rewrite Hcalls in Hin.
  apply in_map_iff in Hin. destruct Hin as (member & <- & _).
  reflexivity.
Qed.

(** C9.  A token does not stand in for the integration: with a token and
    no integration for [github.com] the handler throws, no client is built
    and no remote call is made.  When the organization is given, the
    lookup has been made and the thrown error reports it. *)
Theorem explicit_token_needs_integration t :
  Input.token input = Some t ->
  ScmIntegrationRegistry.github_byHost (action_integrations options)
    "github.com" = None ->
  (exists thrown, outcome = Threw thrown)
  /\ octokitClients trace = []
  /\ teamsCreateCalls trace = []
  /\ membershipCalls trace = []
  /\ forall organization,
       Input.organization input = Some organization ->
       organization <> ""%string ->
       byHostCalls trace = ["github.com"%string]
       /\ outcome
          = Threw (Js.newError
                     ("Failed to authenticate with GitHub for organization '"
                      ++ organization
                      ++ "': No integration for host github.com")%string).
Proof.
  intros Ht Hnone.
  handler_cases platform options input.
  - calls_simpl. split; [eauto|]. do 3 (split; [reflexivity|]).
    intros organization Hsome Hne_o.
    rewrite Hsome in Horg. simpl in Horg.
    apply String.eqb_neq in Hne_o. rewrite Hne_o in Horg. discriminate.
  - destruct (resolverRun_noIntegration Hres Hnone) as ([= ->] & ->).
    calls_simpl. split; [eauto|]. do 3 (split; [reflexivity|]).
    intros organization [= <-] _. split; reflexivity.
  - destruct (resolverRun_noIntegration Hres Hnone) as ([=] & _).
  - destruct (resolverRun_noIntegration Hres Hnone) as ([=] & _).
Qed.

(** C10.  Whatever the platform, the options and the input, every
    integration lookup of an invocation is for ["github.com"], and every
    request for credentials is for ["https://github.com/"] followed by
    the encoded organization, which stays within one path segment. *)
Theorem host_is_github_com :
  (forall h, In h (byHostCalls trace) -> h = "github.com"%string)
  /\ (forall url r,
        In (url, r) (getCredentialsCalls trace) ->
        exists organization,
          Input.organization input = Some organization
          /\ url = ("https://github.com/"
                    ++ Js.encodeURIComponent organization)%string
          /\ forallb urlSafe
               (list_ascii_of_string (Js.encodeURIComponent organization))
             = true).
Proof.
  handler_cases platform options input; calls_simpl.
  1: { split; [intros h []|intros url r []]. }
  all: split; [intros h [<-|[]]; reflexivity|].
  all: intros url r Hin; exists org0.
  all: destruct Hres_g as [Hnone|(r0 & Hone)];
    [rewrite Hnone in Hin; destruct Hin|rewrite Hone in Hin].
  all: destruct Hin as [[= <- _]|[]].
  all: split; [reflexivity|split; [reflexivity|]].
  all: apply encodeURIComponent_urlSafe.
Qed.

End Properties.

(** ** The properties on the scenarios *)

(** Finds an element in a list that has been computed. *)
Ltac in_computed := vm_compute; repeat first [left; reflexivity | right].

(** The membership call that is rejected in [Scenario.mixedInput]. *)
Lemma mixed_rejected_call :
  In (AddOrUpdateMembership
        (membershipParams "test-org" Scenario.createdTeam Scenario.invaliduser)
        (inl (Js.newError "User not found")))
     (traceOf (handler Scenario.platform Scenario.options Scenario.mixedInput)).
Proof. in_computed. Defined.

Lemma mixed_team_created :
  In (TeamsCreate (createParamsOf Scenario.mixedInput "test-org")
        (inr Scenario.createdTeam))
     (traceOf (handler Scenario.platform Scenario.options Scenario.mixedInput)).
Proof. in_computed. Defined.

(** C1 on scenario 8: ["invaliduser"] is rejected, the handler returns. *)
Lemma member_failure_isolated_witness :
  In (AddOrUpdateMembership
        (membershipParams "test-org" Scenario.createdTeam Scenario.invaliduser)
        (inl (Js.newError "User not found")))
     (traceOf (handler Scenario.platform Scenario.options Scenario.mixedInput))
  /\ outcomeOf (handler Scenario.platform Scenario.options Scenario.mixedInput)
     = Returned tt.
Proof.
  split; [exact mixed_rejected_call|].
  exact (proj1 (member_failure_isolated Scenario.platform Scenario.options
                  Scenario.mixedInput _ _ mixed_rejected_call)).
Defined.

(** C2, as amended, on scenario 8, whose three usernames are distinct. *)
Lemma member_results_partition_witness :
  In (TeamsCreate (createParamsOf Scenario.mixedInput "test-org")
        (inr Scenario.createdTeam))
     (traceOf (handler Scenario.platform Scenario.options Scenario.mixedInput))
  /\ exists added failed,
       In ("membersAdded"%string, OutAdded added)
          (outputs (traceOf (handler Scenario.platform Scenario.options
                               Scenario.mixedInput)))
       /\ In ("membersFailed"%string, OutFailed failed)
             (outputs (traceOf (handler Scenario.platform Scenario.options
                                  Scenario.mixedInput)))
       /\ length added + length failed = 3
       /\ eachUsernameOnce
            [Scenario.validuser; Scenario.invaliduser; Scenario.user1]
            added failed.
Proof.
  split; [exact mixed_team_created|].
  destruct (member_results_partition Scenario.platform Scenario.options
              Scenario.mixedInput _ _ mixed_team_created)
    as (added & failed & Hout & Hlen & _ & Honce).
  exists added, failed. rewrite Hout.
  split; [simpl; auto 10|]. split; [simpl; auto 10|]. split; [exact Hlen|].
  apply Honce. simpl.
  repeat constructor; simpl; intuition discriminate.
Defined.

(** C2 as the spec states it fails when a username is listed twice: both
    entries are added, so the username occurs twice in [membersAdded]. *)
Lemma duplicate_username_listed_twice :
  outputs (traceOf (handler Scenario.platform Scenario.options
                      Scenario.duplicateInput))
  = [("teamId"%string, OutNumber 12345);
     ("teamUrl"%string,
      OutString "https://github.com/orgs/test-org/teams/test-team");
     ("teamSlug"%string, OutString "test-team");
     ("membersAdded"%string,
      OutAdded [ {| Added.username := "user1"; Added.role := Role.member |};
                 {| Added.username := "user1"; Added.role := Role.member |} ]);
     ("membersFailed"%string, OutFailed [])]
  /\ ~ eachUsernameOnce [Scenario.user1; Scenario.user1]
         [ {| Added.username := "user1"; Added.role := Role.member |};
           {| Added.username := "user1"; Added.role := Role.member |} ]
         [].
Proof.
  split; [reflexivity|].
  intros H. specialize (H "user1"%string (or_introl eq_refl)).
  vm_compute in H. discriminate.
Qed.

(** C3 when the remote service refuses the name. *)
Lemma team_creation_failure_witness :
  In (TeamsCreate (createParamsOf Scenario.basicInput "test-org")
        (inl (Js.newError "Validation Failed: Name must be unique for this org")))
     (traceOf (handler Scenario.rejectingPlatform Scenario.options
                 Scenario.basicInput))
  /\ outcomeOf (handler Scenario.rejectingPlatform Scenario.options
                  Scenario.basicInput)
     = Threw (Js.newError
                "GitHub team creation failed: Validation Failed: Name must be unique for this org").
Proof.
  assert (H : In (TeamsCreate (createParamsOf Scenario.basicInput "test-org")
                    (inl (Js.newError
                       "Validation Failed: Name must be unique for this org")))
                 (traceOf (handler Scenario.rejectingPlatform Scenario.options
                             Scenario.basicInput)))
    by in_computed.
  split; [exact H|].
  exact (proj1 (team_creation_failure Scenario.rejectingPlatform
                  Scenario.options Scenario.basicInput _ _ H)).
Defined.

(** C4, as amended, with the token of the test suite. *)
Lemma explicit_token_skips_provider_witness :
  Input.token (Scenario.withToken (Some "user-provided-token"%string))
  = Some "user-provided-token"%string
  /\ "user-provided-token"%string <> ""%string
  /\ getCredentialsCalls
       (traceOf (handler Scenario.platform Scenario.options
                   (Scenario.withToken (Some "user-provided-token"%string))))
     = [].
Proof.
  split; [reflexivity|]. split; [discriminate|].
  apply (explicit_token_skips_provider Scenario.platform Scenario.options
           (Scenario.withToken (Some "user-provided-token"%string))
           (t := "user-provided-token"%string)).
  - reflexivity.
  - discriminate.
Defined.

(** C4 as the spec states it fails for a token that is present and empty:
    the provider is asked, and the client authenticates with its token. *)
Lemma empty_token_requests_credentials :
  Input.token (Scenario.withToken (Some ""%string)) = Some ""%string
  /\ getCredentialsCalls
       (traceOf (handler Scenario.platform Scenario.options
                   (Scenario.withToken (Some ""%string))))
     = [("https://github.com/test-org"%string,
         inr {| Credentials.token := Some "mock-github-token"%string |})]
  /\ map OctokitOptions.auth
       (octokitClients
          (traceOf (handler Scenario.platform Scenario.options
                      (Scenario.withToken (Some ""%string)))))
     = ["mock-github-token"%string].
Proof. repeat split. Qed.

(** C5 on the input of the test suite that has no organization. *)
Lemma missing_organization_rejected_witness :
  (Input.organization Scenario.withoutOrganization = None
   \/ Input.organization Scenario.withoutOrganization = Some ""%string)
  /\ outcomeOf (handler Scenario.platform Scenario.options
                  Scenario.withoutOrganization)
     = Threw (Js.newError "Organization name is required but was not provided").
Proof.
  split; [left; reflexivity|].
  apply (missing_organization_rejected Scenario.platform Scenario.options
           Scenario.withoutOrganization).
  left. reflexivity.
Defined.

(** C6 with the failing provider of the test suite. *)
Lemma credential_failure_wrapped_witness :
  In (GetCredentials "https://github.com/test-org"
        (inl (Js.newError "GitHub App not installed on organization")))
     (traceOf (handler Scenario.platform Scenario.optionsFailingProvider
                 Scenario.basicInput))
  /\ exists organization,
       Input.organization Scenario.basicInput = Some organization
       /\ outcomeOf (handler Scenario.platform Scenario.optionsFailingProvider
                       Scenario.basicInput)
          = Threw (Js.newError
                     ("Failed to authenticate with GitHub for organization '"
                      ++ organization
                      ++ "': GitHub App not installed on organization")%string).
Proof.
  assert (H : In (GetCredentials "https://github.com/test-org"
                    (inl (Js.newError "GitHub App not installed on organization")))
                 (traceOf (handler Scenario.platform
                             Scenario.optionsFailingProvider Scenario.basicInput)))
    by in_computed.
  split; [exact H|].
  exact (credential_failure_wrapped Scenario.platform
           Scenario.optionsFailingProvider Scenario.basicInput _ _ H).
Defined.

(** C7, as amended, on a deployment without any integration. *)
Lemma missing_integration_wrapped_witness :
  Input.organization Scenario.basicInput = Some "test-org"%string
  /\ "test-org"%string <> ""%string
  /\ ScmIntegrationRegistry.github_byHost
       (action_integrations Scenario.optionsNoIntegration) "github.com" = None
  /\ outcomeOf (handler Scenario.platform Scenario.optionsNoIntegration
                  Scenario.basicInput)
     = Threw (Js.newError
                "Failed to authenticate with GitHub for organization 'test-org': No integration for host github.com").
Proof.
  split; [reflexivity|]. split; [discriminate|]. split; [reflexivity|].
  apply (missing_integration_wrapped Scenario.platform
           Scenario.optionsNoIntegration Scenario.basicInput
           (organization := "test-org"%string)).
  - reflexivity.
  - discriminate.
  - reflexivity.
Defined.

(** C7 as the spec states it fails: what reaches the caller is not the
    resolver's [InputError] for the missing integration but a plain [Error]
    with the wording of an authentication failure. *)
Lemma missing_integration_not_distinct :
  outcomeOf (handler Scenario.platform Scenario.optionsNoIntegration
               Scenario.basicInput)
  <> Threw (Js.newInputError "No integration for host github.com")
  /\ exists m,
       outcomeOf (handler Scenario.platform Scenario.optionsNoIntegration
                    Scenario.basicInput)
       = Threw (Js.newError
                  ("Failed to authenticate with GitHub for organization '"
                   ++ "test-org" ++ "': " ++ m)%string).
Proof.
  split; [discriminate|].
  exists "No integration for host github.com"%string. reflexivity.
Qed.

(** C8 on scenario 8, where the team name ["Test Team"] and the slug
    ["test-team"] differ. *)
Lemma membership_uses_created_slug_witness :
  In (TeamsCreate (createParamsOf Scenario.mixedInput "test-org")
        (inr Scenario.createdTeam))
     (traceOf (handler Scenario.platform Scenario.options Scenario.mixedInput))
  /\ In (AddOrUpdateMembership
           (membershipParams "test-org" Scenario.createdTeam Scenario.invaliduser)
           (inl (Js.newError "User not found")))
        (traceOf (handler Scenario.platform Scenario.options Scenario.mixedInput))
  /\ Input.teamName Scenario.mixedInput <> Team.slug Scenario.createdTeam
  /\ MembershipParams.team_slug
       (membershipParams "test-org" Scenario.createdTeam Scenario.invaliduser)
     = Team.slug Scenario.createdTeam.
Proof.
  split; [exact mixed_team_created|]. split; [exact mixed_rejected_call|].
  split; [discriminate|].
  exact (membership_uses_created_slug Scenario.platform Scenario.options
           Scenario.mixedInput _ _ _ _ mixed_team_created mixed_rejected_call).
Defined.

(** C9 on a deployment without any integration and a caller's token. *)
Lemma explicit_token_needs_integration_witness :
  Input.token (Scenario.withToken (Some "user-provided-token"%string))
  = Some "user-provided-token"%string
  /\ ScmIntegrationRegistry.github_byHost
       (action_integrations Scenario.optionsNoIntegration) "github.com" = None
  /\ exists thrown,
       outcomeOf (handler Scenario.platform Scenario.optionsNoIntegration
                    (Scenario.withToken (Some "user-provided-token"%string)))
       = Threw thrown.
Proof.
  split; [reflexivity|]. split; [reflexivity|].
  apply (explicit_token_needs_integration Scenario.platform
           Scenario.optionsNoIntegration
           (Scenario.withToken (Some "user-provided-token"%string))
           (t := "user-provided-token"%string)).
  - reflexivity.
  - reflexivity.
Defined.

(** * Further properties of the action *)

(** ** More on the runs of the resolver *)

Section ResolverFacts.

Variable platform : Platform.t.

Lemma fromIntegrationsCalls_app tr1 tr2 :
  fromIntegrationsCalls (tr1 ++ tr2)
  = fromIntegrationsCalls tr1 ++ fromIntegrationsCalls tr2.
Proof. apply flat_map_app. Qed.

Lemma loopEvents_fromIntegrations evs :
  Forall loopEvent evs -> fromIntegrationsCalls evs = [].
Proof.
  induction 1 as [|ev evs Hev _ IH]; [reflexivity|].
  destruct ev; simpl in Hev; try contradiction; exact IH.
Qed.

Lemma outputEvents_fromIntegrations kvs :
  fromIntegrationsCalls (map (fun kv => Output (fst kv) (snd kv)) kvs) = [].
Proof.
  induction kvs as [|[k v] kvs IH]; simpl; auto.
Qed.

(** What is known once a request for credentials is in the events. *)
Lemma resolverRun_requested options tr outcome evs url r :
  ResolverRun platform options tr outcome evs ->
  In (url, r) (getCredentialsCalls evs) ->
  exists cfg,
    ScmIntegrationRegistry.github_byHost (integrations options) (host options)
    = Some cfg
    /\ Js.truthy (token options) = false
    /\ owner options <> ""%string
    /\ url = credentialsUrl (host options) (owner options)
    /\ (exists history,
          r = GithubCredentialsProvider.getCredentials
                (providerOf platform options)
                history url)
    /\ outcome
       = match r with
         | inl e => Threw e
         | inr credentials =>
             if Js.truthy (Credentials.token credentials)
             then Returned
                    (octokitOptionsFor
                       (orDefault (Credentials.token credentials) "") cfg)
             else Threw (Js.newInputError
                    ("No token available for host: " ++ host options
                     ++ ", with owner " ++ owner options
                     ++ ". Make sure GitHub App is installed on the organization.")%string)
         end.
Proof.
  destruct 1 as [| | |cfg made r0 outcome Hcfg Htoken Howner Hmade Hr Hout];
    try (simpl; tauto).
  intros Hin.
  assert (Heq : (url, r)
                = (credentialsUrl (host options) (owner options), r0)).
  { subst made. destruct (credentialsProvider options); simpl in Hin;
      destruct Hin as [Hin|[]]; now symmetry. }
  injection Heq as -> ->.
  exists cfg. repeat (split; [assumption || reflexivity|]).
  split.
  - eexists. exact Hr.
  - rewrite Hout. destruct r0 as [e|[[t|]]]; simpl; try reflexivity.
    destruct (t =? "")%string; reflexivity.
Qed.

(** Options come out of the resolver only around a non-empty token, with
    the base URL of the integration found for the host. *)
Lemma resolverRun_returned options tr o evs :
  ResolverRun platform options tr (Returned o) evs ->
  exists cfg t,
    ScmIntegrationRegistry.github_byHost (integrations options) (host options)
    = Some cfg
    /\ t <> ""%string
    /\ o = octokitOptionsFor t cfg.
Proof.
  intros Hrun. inversion Hrun as [| cfg t Hcfg Ht Hne | |
                                  cfg made r outcome Hcfg Htoken Howner Hmade Hr Hout].
  - exists cfg, t. auto.
  - clear Hr. destruct r as [e|[[t|]]]; cbn in Hout; try discriminate.
    destruct (t =? "")%string eqn:Ht; [discriminate|].
    injection Hout as ->. apply String.eqb_neq in Ht.
    exists cfg, t. auto.
Qed.

(** The default provider is built at most once, and only when none was
    injected and credentials are requested. *)
Lemma resolverRun_fromIntegrations options tr outcome evs :
  ResolverRun platform options tr outcome evs ->
  fromIntegrationsCalls evs
  = match credentialsProvider options, getCredentialsCalls evs with
    | None, _ :: _ => [tt]
    | _, _ => []
    end.
Proof.
  destruct 1; subst; destruct (credentialsProvider options); reflexivity.
Qed.

End ResolverFacts.

#[local] Hint Rewrite fromIntegrationsCalls_app : calls.

Lemma addedOf_In calls p u :
  In (p, inr u) calls ->
  In {| Added.username := MembershipParams.username p;
        Added.role := MembershipParams.role p |} (addedOf calls).
Proof.
  intros H. apply in_flat_map. exists (p, inr u). simpl. auto.
Qed.

Lemma addedOf_In_inv calls a :
  In a (addedOf calls) ->
  exists p, In (p, inr tt) calls
            /\ a = {| Added.username := MembershipParams.username p;
                      Added.role := MembershipParams.role p |}.
Proof.
  intros H. apply in_flat_map in H. destruct H as ([p [e|[]]] & Hin & Ha).
  - destruct Ha.
  - destruct Ha as [<-|[]]. exists p. auto.
Qed.

Lemma failedOf_In_inv calls f :
  In f (failedOf calls) ->
  exists p e, In (p, inl e) calls
              /\ f = {| Failed.username := MembershipParams.username p;
                        Failed.role := MembershipParams.role p;
                        Failed.error := Js.errorMessage e |}.
Proof.
  intros H. apply in_flat_map in H. destruct H as ([p [e|u]] & Hin & Hf).
  - destruct Hf as [<-|[]]. exists p, e. auto.
  - destruct Hf.
Qed.

Lemma In_calls_membership p r tr :
  In (p, r) (membershipCalls tr) -> In (AddOrUpdateMembership p r) tr.
Proof.
  intros H. apply in_flat_map in H. destruct H as (ev & Hev & Hin).
  destruct ev; simpl in Hin; try contradiction.
  destruct Hin as [[= <- <-]|[]]. exact Hev.
Qed.

(** ** Members, calls and results *)

Section MemberProperties.

Variable platform : Platform.t.
Variable options : ActionOptions.
Variable input : Input.t.

Local Abbreviation outcome := (outcomeOf (handler platform options input)).
Local Abbreviation trace := (traceOf (handler platform options input)).
Local Abbreviation members := (orDefault (Input.members input) []).

(** X1.  Without members, absent or an empty list, no membership call is
    made, and the two result lists, when they are set, are empty. *)
Theorem no_members_no_membership_calls :
  Input.members input = None \/ Input.members input = Some [] ->
  membershipCalls trace = []
  /\ (forall added,
        In ("membersAdded"%string, OutAdded added) (outputs trace) ->
        added = [])
  /\ (forall failed,
        In ("membersFailed"%string, OutFailed failed) (outputs trace) ->
        failed = []).
Proof.
  intros Hnone.
  assert (Hmembers : members = [])
    by (destruct Hnone as [-> | ->]; reflexivity).
  handler_cases platform options input; calls_simpl;
    try (repeat split; intros ? []; fail).
  rewrite ?Hmembers in Hcalls. apply map_eq_nil in Hcalls.
  rewrite Hcalls. unfold outputsOf. simpl.
  split; [reflexivity|]. split.
  - intros added H. repeat (destruct H as [[=]|H]); try congruence.
    destruct H.
  - intros failed H. repeat (destruct H as [[=]|H]); try congruence.
    destruct H.
Qed.

(** X2.  Once the team is created, the membership calls are one per member
    of the input, in input order, each for the organization of the input,
    the slug of the created team, the member's username and the member's
    role, [member] when none is given. *)
Theorem one_membership_call_per_member q team :
  In (TeamsCreate q (inr team)) trace ->
  exists organization,
    Input.organization input = Some organization
    /\ map fst (membershipCalls trace)
       = map (fun member =>
                {| MembershipParams.org := organization;
                   MembershipParams.team_slug := Team.slug team;
                   MembershipParams.username := MemberSpec.username member;
                   MembershipParams.role :=
                     orDefault (MemberSpec.role member) Role.member |})
             members.
Proof.
  intros Hin. apply In_teamsCreateCalls in Hin.
  handler_cases platform options input; calls_simpl;
    try (destruct Hin; fail).
  { destruct Hin as [[=]|[]]. }
  destruct Hin as [[= _ <-]|[]].
  exists org0. split; [reflexivity|]. exact Hcalls.
Qed.

(** X3.  A membership call that is accepted does not end the invocation
    either: the handler returns and the member is an entry of the
    [membersAdded] output, with the username and role of the call. *)
Theorem accepted_member_reported p :
  In (AddOrUpdateMembership p (inr tt)) trace ->
  outcome = Returned tt
  /\ exists added,
       In ("membersAdded"%string, OutAdded added) (outputs trace)
       /\ In {| Added.username := MembershipParams.username p;
                Added.role := MembershipParams.role p |} added.
Proof.
  intros Hin. apply In_membershipCalls in Hin.
  handler_cases platform options input; calls_simpl;
    try (destruct Hin; fail).
  split; [reflexivity|].
  exists (addedOf (membershipCalls loop)). split.
  - unfold outputsOf. simpl. auto 10.
  - now apply addedOf_In with tt.
Qed.

(** X4.  The result lists hold nothing else: every entry of [membersAdded]
    is the username and role of an accepted membership call of the
    invocation, every entry of [membersFailed] those of a rejected one, with
    the message of its error. *)
Theorem reported_members_were_called added failed :
  In ("membersAdded"%string, OutAdded added) (outputs trace) ->
  In ("membersFailed"%string, OutFailed failed) (outputs trace) ->
  (forall a, In a added ->
     exists p, In (AddOrUpdateMembership p (inr tt)) trace
               /\ a = {| Added.username := MembershipParams.username p;
                         Added.role := MembershipParams.role p |})
  /\ (forall f, In f failed ->
        exists p e, In (AddOrUpdateMembership p (inl e)) trace
                    /\ f = {| Failed.username := MembershipParams.username p;
                              Failed.role := MembershipParams.role p;
                              Failed.error := Js.errorMessage e |}).
Proof.
  intros Hadded Hfailed.
  assert (Hcalls_in : forall p r,
            In (p, r) (membershipCalls trace) ->
            In (AddOrUpdateMembership p r) trace)
    by (intros; now apply In_calls_membership).
  revert Hadded Hfailed Hcalls_in.
  handler_cases platform options input; calls_simpl;
    intros Hadded Hfailed Hcalls_in; try (destruct Hadded; fail).
  unfold outputsOf in Hadded, Hfailed. simpl in Hadded, Hfailed.
  repeat (destruct Hadded as [[=]|Hadded]); try (destruct Hadded; fail).
  repeat (destruct Hfailed as [[=]|Hfailed]); try (destruct Hfailed; fail).
  subst added failed. split.
  - intros a Ha. apply addedOf_In_inv in Ha. destruct Ha as (p & Hp & ->).
    exists p. split; [|reflexivity]. now apply Hcalls_in.
  - intros f Hf. apply failedOf_In_inv in Hf.
    destruct Hf as (p & e & Hp & ->).
    exists p, e. split; [|reflexivity]. now apply Hcalls_in.
Qed.

End MemberProperties.

(** ** Outcomes, credentials and clients *)

Section OutcomeProperties.

Variable platform : Platform.t.
Variable options : ActionOptions.
Variable input : Input.t.

Local Abbreviation outcome := (outcomeOf (handler platform options input)).
Local Abbreviation trace := (traceOf (handler platform options input)).

(** X5.  Whatever goes wrong, the handler throws an instance of [Error]
    made by itself, with one of three messages: the validation message, the
    authentication wording around the organization, or the creation wording.
    An [InputError] of the resolver or a value thrown by a collaborator never
    reaches the caller as it is. *)
Theorem handler_throws_its_own_errors thrown :
  outcome = Threw thrown ->
  exists m,
    thrown = Js.newError m
    /\ (m = "Organization name is required but was not provided"%string
        \/ (exists organization detail,
              Input.organization input = Some organization
              /\ m = ("Failed to authenticate with GitHub for organization '"
                      ++ organization ++ "': " ++ detail)%string)
        \/ (exists detail,
              m = ("GitHub team creation failed: " ++ detail)%string)).
Proof.
  handler_cases platform options input; intros Heq; try discriminate;
    injection Heq as <-; eexists; (split; [reflexivity|]).
  - left. reflexivity.
  - right. left. exists org0. eexists. split; [assumption|reflexivity].
  - right. right. eexists. reflexivity.
Qed.

(** X6.  When the provider answers without a token, or with an empty one,
    the handler throws the authentication error that names the host and the
    organization, and neither a client nor a team is made. *)
Theorem no_token_available url credentials :
  In (GetCredentials url (inr credentials)) trace ->
  Js.truthy (Credentials.token credentials) = false ->
  exists organization,
    Input.organization input = Some organization
    /\ outcome
       = Threw (Js.newError
                  ("Failed to authenticate with GitHub for organization '"
                   ++ organization
                   ++ "': No token available for host: github.com, with owner "
                   ++ organization
                   ++ ". Make sure GitHub App is installed on the organization.")%string)
    /\ octokitClients trace = []
    /\ teamsCreateCalls trace = [].
Proof.
  intros Hin Hfalsy. apply In_getCredentialsCalls in Hin.
  handler_cases platform options input; calls_simpl;
    try (destruct Hin; fail);
    destruct (resolverRun_requested _ _ Hres Hin)
      as (cfg & _ & _ & _ & _ & _ & Hout);
    cbv iota in Hout; rewrite Hfalsy in Hout; try discriminate.
  injection Hout as ->. exists org0. repeat split.
Qed.

(** X7.  When the provider issues a non-empty token, the one client of the
    invocation authenticates with it, against the API base URL of the
    [github.com] integration. *)
Theorem issued_token_authenticates url credentials t :
  In (GetCredentials url (inr credentials)) trace ->
  Credentials.token credentials = Some t ->
  t <> ""%string ->
  exists cfg,
    ScmIntegrationRegistry.github_byHost (action_integrations options)
      "github.com" = Some cfg
    /\ octokitClients trace
       = [ {| OctokitOptions.auth := t;
              OctokitOptions.baseUrl := IntegrationConfig.apiBaseUrl cfg;
              OctokitOptions.previews := ["nebula-preview"%string];
              OctokitOptions.request_timeout := 60000 |} ].
Proof.
  intros Hin Ht Hne_t. apply In_getCredentialsCalls in Hin.
  apply String.eqb_neq in Hne_t.
  handler_cases platform options input; calls_simpl;
    try (destruct Hin; fail);
    destruct (resolverRun_requested _ _ Hres Hin)
      as (cfg & Hcfg & _ & _ & _ & _ & Hout);
    cbv iota in Hout; rewrite ?Ht in Hout;
    cbn [Js.truthy orDefault] in Hout; rewrite Hne_t in Hout;
    cbn [negb] in Hout; try discriminate.
  all: injection Hout as ->; exists cfg; split; [exact Hcfg|reflexivity].
Qed.

(** X8.  Every client is built with a non-empty token, the API base URL of
    the [github.com] integration, the preview ["nebula-preview"] and a
    request timeout of 60000 ms. *)
Theorem client_options o :
  In o (octokitClients trace) ->
  exists cfg,
    ScmIntegrationRegistry.github_byHost (action_integrations options)
      "github.com" = Some cfg
    /\ OctokitOptions.auth o <> ""%string
    /\ OctokitOptions.baseUrl o = IntegrationConfig.apiBaseUrl cfg
    /\ OctokitOptions.previews o = ["nebula-preview"%string]
    /\ OctokitOptions.request_timeout o = 60000%Z.
Proof.
  intros Hin.
  handler_cases platform options input; calls_simpl;
    try (destruct Hin; fail).
  all: destruct Hin as [<-|[]].
  all: destruct (resolverRun_returned Hres) as (cfg & t & Hcfg & Hne_t & ->).
  all: exists cfg; repeat split; assumption.
Qed.

(** X9.  With a provider injected into the action, the default provider is
    never built during an invocation, and every request for credentials is
    answered by the injected one. *)
Theorem injected_provider_answers provider :
  githubCredentialsProvider options = Some provider ->
  fromIntegrationsCalls trace = []
  /\ forall url r,
       In (url, r) (getCredentialsCalls trace) ->
       exists history,
         r = GithubCredentialsProvider.getCredentials provider history url.
Proof.
  intros Hprovider.
  handler_cases platform options input;
    try (pose proof (resolverRun_fromIntegrations Hres) as Hdefault;
         cbn [credentialsProvider resolverOptionsOf] in Hdefault;
         rewrite Hprovider in Hdefault);
    try (pose proof (loopEvents_fromIntegrations Hloop) as Hloop_f);
    try (pose proof (loopEvents_fromIntegrations (logEvents_loopEvents Hpre))
          as Hpre_f);
    calls_simpl; rewrite ?outputEvents_fromIntegrations;
    (split; [reflexivity|]); intros url r Hin; try (destruct Hin; fail).
  all: destruct (resolverRun_requested _ _ Hres Hin)
         as (cfg & _ & _ & _ & _ & (history & Hr) & _).
  all: unfold providerOf in Hr;
    cbn [credentialsProvider resolverOptionsOf] in Hr.
  all: rewrite Hprovider in Hr; eauto.
Qed.


End OutcomeProperties.

(** ** The course of an invocation *)

Section CourseProperties.

Variable platform : Platform.t.
Variable options : ActionOptions.
Variable input : Input.t.

Local Abbreviation outcome := (outcomeOf (handler platform options input)).
Local Abbreviation trace := (traceOf (handler platform options input)).

(** X11.  Nothing is tried twice: an invocation makes at most one
    integration lookup, one request for credentials, one client and one
    create-team call. *)
Theorem nothing_is_retried :
  length (byHostCalls trace) <= 1
  /\ length (getCredentialsCalls trace) <= 1
  /\ length (octokitClients trace) <= 1
  /\ length (teamsCreateCalls trace) <= 1.
Proof.
  handler_cases platform options input; calls_simpl;
    try (destruct Hres_g as [Hres_g|(r0 & Hres_g)]; rewrite Hres_g);
    simpl; repeat split; lia.
Qed.

(** X12.  Outputs are all or nothing: a handler that throws has set none;
    a handler that returns has set [teamId], [teamUrl], [teamSlug],
    [membersAdded] and [membersFailed], once each, in this order. *)
Theorem outputs_all_or_nothing :
  match outcome with
  | Threw _ => outputs trace = []
  | Returned _ =>
      map fst (outputs trace)
      = ["teamId"; "teamUrl"; "teamSlug"; "membersAdded"; "membersFailed"]%string
  end.
Proof.
  handler_cases platform options input; calls_simpl; reflexivity.
Qed.


(** X14.  The create-team call is made for the non-empty organization of
    the input, with the team name and description of the input as they
    are and the privacy of the input, [closed] when none is given. *)
Theorem create_call_parameters q r :
  In (TeamsCreate q r) trace ->
  exists organization,
    Input.organization input = Some organization
    /\ organization <> ""%string
    /\ q = {| CreateParams.org := organization;
              CreateParams.name := Input.teamName input;
              CreateParams.description := Input.description input;
              CreateParams.privacy :=
                orDefault (Input.privacy input) Privacy.closed |}.
Proof.
  intros Hin. apply In_teamsCreateCalls in Hin.
  handler_cases platform options input; calls_simpl;
    try (destruct Hin; fail).
  all: destruct Hin as [[= <- _]|[]]; exists org0; auto.
Qed.

End CourseProperties.

(** ** The resolver on its own *)

Section ResolverProperties.

Variable platform : Platform.t.

(** X15.  Called with an empty owner and no token for a host that has an
    integration, the resolver throws its [InputError] about the missing
    organization after the lookup; the provider is not asked. *)
Theorem resolver_requires_owner options tr cfg :
  ScmIntegrationRegistry.github_byHost (integrations options) (host options)
  = Some cfg ->
  Js.truthy (token options) = false ->
  owner options = ""%string ->
  getOctokitOptionsForOrg platform options tr
  = (Threw (Js.newInputError
       "No organization/owner provided, which is required for GitHub App authentication"),
     tr ++ [ByHost (host options)]).
Proof.
  intros Hcfg Htoken Howner.
  destruct (getOctokitOptionsForOrg_run platform options tr)
    as (outcome & evs & Heq & Hrun).
  rewrite Heq.
  destruct Hrun as [Hno | cfg0 t Hc Ht Hne | cfg0 Hc Hnt Ho
                   | cfg0 made r outcome Hc Hnt Ho Hmade Hr Hout].
  - congruence.
  - rewrite Ht in Htoken. simpl in Htoken.
    apply String.eqb_neq in Hne. rewrite Hne in Htoken. discriminate.
  - reflexivity.
  - contradiction.
Qed.

(** With a non-empty token the resolver needs neither an owner nor a
    provider: after the lookup it returns options around that token, the
    same for every owner and every provider. *)
Theorem resolver_token_first options tr cfg t :
  ScmIntegrationRegistry.github_byHost (integrations options) (host options)
  = Some cfg ->
  token options = Some t ->
  t <> ""%string ->
  getOctokitOptionsForOrg platform options tr
  = (Returned (octokitOptionsFor t cfg), tr ++ [ByHost (host options)]).
Proof.
  intros Hcfg Htoken Hne.
  destruct (getOctokitOptionsForOrg_run platform options tr)
    as (outcome & evs & Heq & Hrun).
  rewrite Heq.
  assert (Htruthy : Js.truthy (token options) = true).
  { rewrite Htoken. simpl. apply String.eqb_neq in Hne. now rewrite Hne. }
  destruct Hrun as [Hno | cfg0 t0 Hc Ht Hne0 | cfg0 Hc Hnt Ho
                   | cfg0 made r outcome Hc Hnt Ho Hmade Hr Hout];
    congruence.
Qed.

(** X16.  The resolver works for any host: it looks up the integration of
    the host it is given, once, and requests credentials, if at all, for
    [https://<host>/<encoded owner>]. *)
Theorem resolver_any_host options tr :
  exists events,
    snd (getOctokitOptionsForOrg platform options tr) = tr ++ events
    /\ byHostCalls events = [host options]
    /\ forall url r,
         In (url, r) (getCredentialsCalls events) ->
         url = ("https://" ++ host options ++ "/"
                ++ Js.encodeURIComponent (owner options))%string.
Proof.
  destruct (getOctokitOptionsForOrg_run platform options tr)
    as (outcome & evs & Heq & Hrun).
  rewrite Heq. cbn [snd]. exists evs.
  split; [reflexivity|].
  destruct (resolverRun_calls Hrun) as (Hh & _ & _ & _ & _ & Hg).
  split; [exact Hh|].
  intros url r Hin.
  destruct Hg as [Hg|(r0 & Hg)]; rewrite Hg in Hin.
  - destruct Hin.
  - destruct Hin as [[= <- _]|[]]. reflexivity.
Qed.

End ResolverProperties.

(** ** The credential URL determines the organization *)

Lemma nat_of_hexDigit n :
  n < 16 ->
  nat_of_ascii (Js.hexDigit n) = if Nat.ltb n 10 then 48 + n else 55 + n.
Proof.
  intros H. unfold Js.hexDigit.
  destruct (Nat.ltb n 10) eqn:Hlt; apply nat_ascii_embedding.
  - apply Nat.ltb_lt in Hlt. lia.
  - lia.
Qed.

Lemma hexDigit_inj a b :
  a < 16 -> b < 16 -> Js.hexDigit a = Js.hexDigit b -> a = b.
Proof.
  intros Ha Hb Heq. apply (f_equal nat_of_ascii) in Heq.
  rewrite !nat_of_hexDigit in Heq by assumption.
  destruct (Nat.ltb a 10) eqn:Hlta, (Nat.ltb b 10) eqn:Hltb;
    try apply Nat.ltb_lt in Hlta; try apply Nat.ltb_lt in Hltb;
    try apply Nat.ltb_ge in Hlta; try apply Nat.ltb_ge in Hltb; lia.
Qed.

Lemma percentEncode_inj c1 c2 :
  Js.percentEncode c1 = Js.percentEncode c2 -> c1 = c2.
Proof.
  unfold Js.percentEncode. cbv zeta.
  pose proof (nat_ascii_bounded c1) as H1.
  pose proof (nat_ascii_bounded c2) as H2.
  pose proof (Nat.div_mod_eq (nat_of_ascii c1) 16) as E1.
  pose proof (Nat.div_mod_eq (nat_of_ascii c2) 16) as E2.
  assert (Hhi1 : nat_of_ascii c1 / 16 < 16)
    by (apply Nat.Div0.div_lt_upper_bound; assumption).
  assert (Hhi2 : nat_of_ascii c2 / 16 < 16)
    by (apply Nat.Div0.div_lt_upper_bound; assumption).
  assert (Hlo1 : nat_of_ascii c1 mod 16 < 16)
    by (apply Nat.mod_upper_bound; discriminate).
  assert (Hlo2 : nat_of_ascii c2 mod 16 < 16)
    by (apply Nat.mod_upper_bound; discriminate).
  remember (nat_of_ascii c1 / 16) as hi1.
  remember (nat_of_ascii c2 / 16) as hi2.
  remember (nat_of_ascii c1 mod 16) as lo1.
  remember (nat_of_ascii c2 mod 16) as lo2.
  intros [= Hhi Hlo].
  apply hexDigit_inj in Hhi; [|assumption|assumption].
  apply hexDigit_inj in Hlo; [|assumption|assumption].
  rewrite <- (ascii_nat_embedding c1), <- (ascii_nat_embedding c2).
  f_equal. congruence.
Qed.

Lemma percentEncode_append_inj c1 c2 rest1 rest2 :
  (Js.percentEncode c1 ++ rest1)%string = (Js.percentEncode c2 ++ rest2)%string ->
  Js.percentEncode c1 = Js.percentEncode c2 /\ rest1 = rest2.
Proof.
  unfold Js.percentEncode. cbv zeta.
  generalize (Js.hexDigit (nat_of_ascii c1 / 16)),
    (Js.hexDigit (nat_of_ascii c1 mod 16)),
    (Js.hexDigit (nat_of_ascii c2 / 16)),
    (Js.hexDigit (nat_of_ascii c2 mod 16)).
  intros a b c d. simpl. intros [= -> -> ->]. auto.
Qed.

Lemma encodeURIComponent_inj s1 :
  forall s2, Js.encodeURIComponent s1 = Js.encodeURIComponent s2 -> s1 = s2.
Proof.
  induction s1 as [|c1 s1 IH]; intros [|c2 s2] Heq.
  - reflexivity.
  - simpl in Heq. unfold Js.percentEncode in Heq.
    destruct (Js.unreserved c2); discriminate.
  - simpl in Heq. unfold Js.percentEncode in Heq.
    destruct (Js.unreserved c1); discriminate.
  - cbn [Js.encodeURIComponent] in Heq.
    destruct (Js.unreserved c1) eqn:H1, (Js.unreserved c2) eqn:H2.
    + injection Heq as -> Hrest. f_equal. now apply IH.
    + unfold Js.percentEncode in Heq. injection Heq as -> _.
      discriminate.
    + unfold Js.percentEncode in Heq. injection Heq as <- _.
      discriminate.
    + apply percentEncode_append_inj in Heq. destruct Heq as (Hc & Hrest).
      f_equal; [now apply percentEncode_inj|now apply IH].
Qed.

Lemma append_inj_l prefix a b :
  (prefix ++ a)%string = (prefix ++ b)%string -> a = b.
Proof.
  induction prefix as [|c prefix IH]; simpl; [auto|].
  intros [= H]. auto.
Qed.

(** X17.  On one host, two owners have the same credential URL only when
    they are the same: the encoding of the owner loses nothing. *)
Theorem credentialsUrl_injective host owner1 owner2 :
  credentialsUrl host owner1 = credentialsUrl host owner2 ->
  owner1 = owner2.
Proof.
  unfold credentialsUrl. intros H.
  do 3 apply append_inj_l in H.
  now apply encodeURIComponent_inj.
Qed.

(** ** The loop over a list in two parts *)


(** ** The action as the module registers it *)

Section ModuleProperties.

Variable platform : Platform.t.
Variable Config : Type.
Variable ScmIntegrations_fromConfig : Config -> ScmIntegrationRegistry.t.

(** X19.  [init] adds one action after those already registered, with the
    id [github:team:create].  Its provider is the default one of the
    configured integrations, built at registration: no invocation builds a
    provider again, and every request for credentials is answered by that
    one. *)
Theorem registered_action scaffolderActions config :
  exists action,
    scaffolderModule_init platform ScmIntegrations_fromConfig
      scaffolderActions config
    = scaffolderActions ++ [action]
    /\ TemplateAction.id action = "github:team:create"%string
    /\ forall input,
         fromIntegrationsCalls (traceOf (TemplateAction.handler action input))
         = []
         /\ forall url r,
              In (url, r)
                 (getCredentialsCalls
                    (traceOf (TemplateAction.handler action input))) ->
              exists history,
                r = GithubCredentialsProvider.getCredentials
                      (Platform.DefaultGithubCredentialsProvider_fromIntegrations
                         platform (ScmIntegrations_fromConfig config))
                      history url.
Proof.
  eexists. split; [reflexivity|]. split; [reflexivity|].
  intros input. cbn [TemplateAction.handler createGithubTeamCreateAction].
  set (options := scaffolderModule_options platform ScmIntegrations_fromConfig
                    config).
  assert (Hprovider :
            githubCredentialsProvider options
            = Some (Platform.DefaultGithubCredentialsProvider_fromIntegrations
                      platform (ScmIntegrations_fromConfig config)))
    by reflexivity.
  clearbody options.
  handler_cases platform options input;
    try (pose proof (resolverRun_fromIntegrations Hres) as Hdefault;
         cbn [credentialsProvider resolverOptionsOf] in Hdefault;
         rewrite Hprovider in Hdefault);
    try (pose proof (loopEvents_fromIntegrations Hloop) as Hloop_f);
    try (pose proof (loopEvents_fromIntegrations (logEvents_loopEvents Hpre))
          as Hpre_f);
    calls_simpl; rewrite ?outputEvents_fromIntegrations;
    (split; [reflexivity|]); intros url r Hin; try (destruct Hin; fail).
  all: destruct (resolverRun_requested _ _ Hres Hin)
         as (cfg & _ & _ & _ & _ & (history & Hr) & _).
  all: unfold providerOf in Hr;
    cbn [credentialsProvider resolverOptionsOf] in Hr.
  all: rewrite Hprovider in Hr; eauto.
Qed.

End ModuleProperties.

(** * The earlier action *)

(** ** Its runs *)

Section LegacyRuns.

Variable Octokit : Legacy.OctokitConstructor.

Lemma legacy_membershipCalls_app tr1 tr2 :
  Legacy.membershipCalls (tr1 ++ tr2)
  = Legacy.membershipCalls tr1 ++ Legacy.membershipCalls tr2.
Proof. apply flat_map_app. Qed.

Lemma legacy_addMember_run octokit input team member tr :
  exists level text r,
    Legacy.addMember octokit (Input.organization input) team member tr
    = (Returned tt,
       tr ++ [Legacy.AddOrUpdateMembership
                (Legacy.membershipParams input team member) r;
              Legacy.Log level text]).
Proof.
  unfold Legacy.addMember, Legacy.tryCatch, Legacy.bind,
    Legacy.teams_addOrUpdateMembershipForUserInOrg, Legacy.await,
    Legacy.logger_info, Legacy.logger_warn, Legacy.emit, Legacy.ret.
  fold (Legacy.membershipParams input team member).
  destruct (Legacy.OctokitClient.teams_addOrUpdateMembershipForUserInOrg _ _ _)
    as [e|[]]; cbv beta iota zeta; rewrite <- app_assoc;
    do 3 eexists; reflexivity.
Qed.

(** The loop never throws and makes one call per member, in order. *)
Lemma legacy_addMembers_run octokit input team members :
  forall tr,
  exists evs,
    Legacy.addMembers octokit (Input.organization input) team members tr
    = (Returned tt, tr ++ evs)
    /\ Forall Legacy.loopEvent evs
    /\ map fst (Legacy.membershipCalls evs)
       = map (Legacy.membershipParams input team) members.
Proof.
  induction members as [|member rest IH]; intros tr.
  - exists []. simpl. unfold Legacy.ret. rewrite app_nil_r. auto.
  - destruct (legacy_addMember_run octokit input team member tr)
      as (level & text & r & Hone).
    cbn [Legacy.addMembers]. unfold Legacy.bind at 1. rewrite Hone.
    match goal with
    | |- context [Legacy.addMembers _ _ _ rest ?tr1] =>
        destruct (IH tr1) as (evs & Hrest & Hloop & Hcalls)
    end.
    rewrite Hrest, <- app_assoc. eexists. split; [reflexivity|]. split.
    + repeat constructor. exact Hloop.
    + cbn [app Legacy.membershipCalls flat_map map fst].
      fold (Legacy.membershipCalls evs). now rewrite Hcalls.
Qed.

Lemma legacy_provisionMembers_run octokit input team tr :
  exists evs,
    Legacy.provisionMembers octokit (Input.organization input) team
      (Input.members input) tr
    = (Returned tt, tr ++ evs)
    /\ Forall Legacy.loopEvent evs
    /\ map fst (Legacy.membershipCalls evs)
       = map (Legacy.membershipParams input team)
             (orDefault (Input.members input) []).
Proof.
  unfold Legacy.provisionMembers.
  destruct (Input.members input) as [[|member rest]|]; simpl orDefault;
    try solve [exists []; unfold Legacy.ret; simpl; rewrite app_nil_r; auto].
  set (members := member :: rest).
  replace (negb (Nat.ltb 0 (length members))) with false by reflexivity.
  cbv iota. unfold Legacy.bind, Legacy.logger_info, Legacy.emit.
  match goal with
  | |- context [Legacy.addMembers _ _ _ members ?tr1] =>
      destruct (legacy_addMembers_run octokit input team members tr1)
        as (evs & Hrun & Hloop & Hcalls)
  end.
  rewrite Hrun, <- app_assoc. eexists. split; [reflexivity|]. split.
  - constructor; [exact I|exact Hloop].
  - exact Hcalls.
Qed.

Lemma legacy_handler_run integrations input :
  exists outcome trace,
    Legacy.handler Octokit integrations input [] = (outcome, trace)
    /\ Legacy.HandlerRun Octokit integrations input outcome trace.
Proof.
  unfold Legacy.handler, Legacy.byHost.
  unfold Legacy.bind at 1. unfold Legacy.logger_info at 1.
  unfold Legacy.emit at 1. cbv beta iota. rewrite app_nil_l.
  unfold Legacy.bind at 1. unfold Legacy.bind at 1.
  unfold Legacy.emit at 1. unfold Legacy.ret at 1. cbv beta iota.
  destruct (ScmIntegrationRegistry.github_byHost integrations "github.com")
    as [cfg|] eqn:Hcfg.
  2: { do 2 eexists. split; [reflexivity|]. now apply Legacy.NotConfigured. }
  cbv zeta. fold (Legacy.tokenFor input cfg).
  fold (Legacy.createParamsOf input).
  destruct (Js.truthy (Legacy.tokenFor input cfg)) eqn:Htruthy.
  2: { do 2 eexists. split; [reflexivity|]. now apply Legacy.NoToken with cfg. }
  destruct (Legacy.tokenFor input cfg) as [token|] eqn:Htoken; [|discriminate].
  assert (Hne : token <> ""%string) by (intros ->; discriminate).
  cbn [negb orDefault app].
  unfold Legacy.newOctokit, Legacy.tryCatch, Legacy.teams_create, Legacy.await.
  unfold Legacy.bind at 1. unfold Legacy.bind at 1.
  unfold Legacy.emit at 1. unfold Legacy.ret at 1. cbv beta iota zeta.
  unfold Legacy.bind at 1. unfold Legacy.logger_info at 1.
  unfold Legacy.emit at 1. cbv beta iota zeta.
  unfold Legacy.bind at 1. cbv beta iota zeta. cbn [app].
  destruct (Legacy.OctokitClient.teams_create (Octokit token) _ _)
    as [e|team] eqn:Hcreate.
  { unfold Legacy.bind, Legacy.logger_error, Legacy.emit, Legacy.throw.
    cbn [app]. do 2 eexists. split; [reflexivity|].
    eapply Legacy.CreationFailed; eauto. }
  unfold Legacy.bind at 1. unfold Legacy.logger_info at 1.
  unfold Legacy.emit at 1. cbv beta iota. cbn [app].
  unfold Legacy.bind at 1.
  match goal with
  | |- context [Legacy.provisionMembers ?o _ ?tm _ ?tr1] =>
      destruct (legacy_provisionMembers_run o input tm tr1)
        as (loop & Heq & Hloop & Hcalls)
  end.
  rewrite Heq.
  unfold Legacy.bind, Legacy.output, Legacy.logger_info, Legacy.emit.
  do 2 eexists. split.
  2: { eapply Legacy.Completed with (loop := loop); eauto. }
  rewrite <- !app_assoc. reflexivity.
Qed.

End LegacyRuns.

Lemma legacy_loopEvents_other evs :
  Forall Legacy.loopEvent evs ->
  Legacy.byHostCalls evs = [] /\ Legacy.octokitClients evs = []
  /\ Legacy.teamsCreateCalls evs = [] /\ Legacy.outputs evs = [].
Proof.
  induction 1 as [|ev evs Hev _ IH]; [repeat split|].
  destruct ev; simpl in Hev; try contradiction; exact IH.
Qed.

Lemma legacy_In_teamsCreateCalls p r tr :
  In (Legacy.TeamsCreate p r) tr -> In (p, r) (Legacy.teamsCreateCalls tr).
Proof.
  intros H. apply in_flat_map. exists (Legacy.TeamsCreate p r). simpl. auto.
Qed.

Lemma legacy_In_membershipCalls p r tr :
  In (Legacy.AddOrUpdateMembership p r) tr ->
  In (p, r) (Legacy.membershipCalls tr).
Proof.
  intros H. apply in_flat_map.
  exists (Legacy.AddOrUpdateMembership p r). simpl. auto.
Qed.

Lemma legacy_octokitClients_app tr1 tr2 :
  Legacy.octokitClients (tr1 ++ tr2)
  = Legacy.octokitClients tr1 ++ Legacy.octokitClients tr2.
Proof. apply flat_map_app. Qed.

Lemma legacy_teamsCreateCalls_app tr1 tr2 :
  Legacy.teamsCreateCalls (tr1 ++ tr2)
  = Legacy.teamsCreateCalls tr1 ++ Legacy.teamsCreateCalls tr2.
Proof. apply flat_map_app. Qed.

Lemma legacy_outputs_app tr1 tr2 :
  Legacy.outputs (tr1 ++ tr2) = Legacy.outputs tr1 ++ Legacy.outputs tr2.
Proof. apply flat_map_app. Qed.

Create Rewrite HintDb legacy_calls.
#[local] Hint Rewrite legacy_membershipCalls_app legacy_octokitClients_app
  legacy_teamsCreateCalls_app legacy_outputs_app : legacy_calls.

Ltac legacy_cases Octokit integrations input :=
  let outcome := fresh "outcome" in
  let trace := fresh "trace" in
  let Hrun := fresh "Hrun" in
  let Hshape := fresh "Hshape" in
  unfold Legacy.outcomeOf, Legacy.traceOf in *;
  destruct (legacy_handler_run Octokit integrations input)
    as (outcome & trace & Hrun & Hshape);
  rewrite Hrun in *; cbn [fst snd] in *;
  destruct Hshape
    as [ t0 Hnone
       | cfg0 t0 Hcfg Hfalsy
       | cfg0 token0 err t0 t1 t2 Hcfg Htoken Hne
       | cfg0 token0 team0 loop t0 t1 t2 t3 Hcfg Htoken Hne Hloop Hcalls ];
  try (destruct (legacy_loopEvents_other Hloop)
        as (Hloop_h & Hloop_o & Hloop_c & Hloop_out));
  autorewrite with legacy_calls in *;
  cbn [Legacy.byHostCalls Legacy.octokitClients Legacy.teamsCreateCalls
       Legacy.membershipCalls Legacy.outputs flat_map app] in *;
  repeat match goal with
         | H : _ = [] |- _ => rewrite H in *
         end;
  rewrite ?app_nil_r in *; cbn [app] in *.

(** ** Its properties *)

Section LegacyProperties.

Variable Octokit : Legacy.OctokitConstructor.
Variable integrations : ScmIntegrationRegistry.t.
Variable input : Input.t.

Local Abbreviation outcome :=
  (Legacy.outcomeOf (Legacy.handler Octokit integrations input)).
Local Abbreviation trace :=
  (Legacy.traceOf (Legacy.handler Octokit integrations input)).

(** X20.  Without an integration for [github.com] the earlier action throws
    [Error("GitHub integration not configured")] as it is, with or without
    a token in the input, before any client is built. *)
Theorem legacy_integration_required :
  ScmIntegrationRegistry.github_byHost integrations "github.com" = None ->
  outcome = Threw (Js.newError "GitHub integration not configured")
  /\ Legacy.octokitClients trace = []
  /\ Legacy.teamsCreateCalls trace = []
  /\ Legacy.membershipCalls trace = [].
Proof.
  intros Hno.
  legacy_cases Octokit integrations input; try congruence.
  repeat split.
Qed.

(** X21.  The client of the earlier action authenticates with the token of
    the input when it is non-empty, and with the token of the integration
    otherwise; never with an empty token. *)
Theorem legacy_token_choice auth :
  In auth (Legacy.octokitClients trace) ->
  auth <> ""%string
  /\ exists cfg,
       ScmIntegrationRegistry.github_byHost integrations "github.com" = Some cfg
       /\ Some auth
          = if Js.truthy (Input.token input) then Input.token input
            else IntegrationConfig.token cfg.
Proof.
  intros Hin.
  legacy_cases Octokit integrations input; try (destruct Hin; fail).
  all: destruct Hin as [<-|[]]; split; [assumption|].
  all: exists cfg0; split; [assumption|]; symmetry; exact Htoken.
Qed.

(** X22.  With an integration but no usable token, neither in the input nor
    in the integration, the earlier action throws its token error and builds
    no client. *)
Theorem legacy_token_required cfg :
  ScmIntegrationRegistry.github_byHost integrations "github.com" = Some cfg ->
  Js.truthy (Input.token input) = false ->
  Js.truthy (IntegrationConfig.token cfg) = false ->
  outcome
  = Threw (Js.newError
             "GitHub token not provided and not configured in integration")
  /\ Legacy.octokitClients trace = []
  /\ Legacy.teamsCreateCalls trace = [].
Proof.
  intros Hsome Hinput Hcfg_token.
  assert (Hfalse : Js.truthy (Legacy.tokenFor input cfg) = false).
  { unfold Legacy.tokenFor. rewrite Hinput. exact Hcfg_token. }
  legacy_cases Octokit integrations input; try congruence.
  - repeat split.
  - replace cfg0 with cfg in * by congruence.
    rewrite Htoken in Hfalse. simpl in Hfalse.
    apply String.eqb_neq in Hne. rewrite Hne in Hfalse. discriminate.
  - replace cfg0 with cfg in * by congruence.
    rewrite Htoken in Hfalse. simpl in Hfalse.
    apply String.eqb_neq in Hne. rewrite Hne in Hfalse. discriminate.
Qed.

(** X23.  In the earlier action a rejected membership call is only logged:
    the handler returns, all the members are still tried in input order, and
    the outputs are [teamId], [teamUrl] and [teamSlug] alone. *)
Theorem legacy_member_failure_unreported p e :
  In (Legacy.AddOrUpdateMembership p (inl e)) trace ->
  outcome = Returned tt
  /\ map fst (Legacy.outputs trace) = ["teamId"; "teamUrl"; "teamSlug"]%string
  /\ exists team,
       map fst (Legacy.membershipCalls trace)
       = map (fun member =>
                {| Legacy.MembershipParams.org := Input.organization input;
                   Legacy.MembershipParams.team_slug := Team.slug team;
                   Legacy.MembershipParams.username :=
                     MemberSpec.username member;
                   Legacy.MembershipParams.role :=
                     orDefault (MemberSpec.role member) Role.member |})
             (orDefault (Input.members input) []).
Proof.
  intros Hin. apply legacy_In_membershipCalls in Hin.
  legacy_cases Octokit integrations input; try (destruct Hin; fail).
  split; [reflexivity|]. split; [reflexivity|].
  exists team0. exact Hcalls.
Qed.

(** X24.  The earlier action does not check the organization: with an
    integration and a token, the create-team call is made with
    [input.organization] as it is, absent or empty included. *)
Theorem legacy_organization_unchecked cfg token :
  ScmIntegrationRegistry.github_byHost integrations "github.com" = Some cfg ->
  Legacy.tokenFor input cfg = Some token ->
  token <> ""%string ->
  exists r,
    Legacy.teamsCreateCalls trace
    = [({| Legacy.CreateParams.org := Input.organization input;
           Legacy.CreateParams.name := Input.teamName input;
           Legacy.CreateParams.description := Input.description input;
           Legacy.CreateParams.privacy :=
             orDefault (Input.privacy input) Privacy.closed |}, r)].
Proof.
  intros Hsome Htok Hne_t.
  legacy_cases Octokit integrations input; try congruence.
  - replace cfg0 with cfg in * by congruence.
    rewrite Htok in Hfalsy. simpl in Hfalsy.
    apply String.eqb_neq in Hne_t. rewrite Hne_t in Hfalsy. discriminate.
  - eexists. reflexivity.
  - eexists. reflexivity.
Qed.

(** X25.  When the create-team call fails with [e], the earlier action
    throws ["GitHub team creation failed: "] with the message of [e], makes
    no membership call and sets no output. *)
Theorem legacy_creation_failure p e :
  In (Legacy.TeamsCreate p (inl e)) trace ->
  outcome
  = Threw (Js.newError
             ("GitHub team creation failed: " ++ Js.errorMessage e)%string)
  /\ Legacy.membershipCalls trace = []
  /\ Legacy.outputs trace = [].
Proof.
  intros Hin. apply legacy_In_teamsCreateCalls in Hin.
  legacy_cases Octokit integrations input; try (destruct Hin; fail).
  - destruct Hin as [[= _ <-]|[]]. repeat split.
  - destruct Hin as [[=]|[]].
Qed.

End LegacyProperties.

(** * The further properties on the scenarios *)

Ltac in_list := repeat first [left; reflexivity | right].

Lemma mixed_accepted_call :
  In (AddOrUpdateMembership
        (membershipParams "test-org" Scenario.createdTeam Scenario.validuser)
        (inr tt))
     (traceOf (handler Scenario.platform Scenario.options Scenario.mixedInput)).
Proof. in_computed. Defined.

Lemma basic_credentials_issued :
  In (GetCredentials "https://github.com/test-org"
        (inr {| Credentials.token := Some "mock-github-token"%string |}))
     (traceOf (handler Scenario.platform Scenario.options Scenario.basicInput)).
Proof. in_computed. Defined.

Lemma basic_team_created :
  In (TeamsCreate (createParamsOf Scenario.basicInput "test-org")
        (inr Scenario.createdTeam))
     (traceOf (handler Scenario.platform Scenario.options Scenario.basicInput)).
Proof. in_computed. Defined.

(** X1 on the basic input of the test suite, which has no members. *)
Lemma no_members_no_membership_calls_witness :
  (Input.members Scenario.basicInput = None
   \/ Input.members Scenario.basicInput = Some [])
  /\ membershipCalls
       (traceOf (handler Scenario.platform Scenario.options Scenario.basicInput))
     = [].
Proof.
  split; [left; reflexivity|].
  apply (no_members_no_membership_calls Scenario.platform Scenario.options
           Scenario.basicInput).
  left. reflexivity.
Defined.

(** X2 on scenario 8. *)
Lemma one_membership_call_per_member_witness :
  In (TeamsCreate (createParamsOf Scenario.mixedInput "test-org")
        (inr Scenario.createdTeam))
     (traceOf (handler Scenario.platform Scenario.options Scenario.mixedInput))
  /\ length (membershipCalls
               (traceOf (handler Scenario.platform Scenario.options
                           Scenario.mixedInput)))
     = 3.
Proof.
  split; [exact mixed_team_created|].
  destruct (@one_membership_call_per_member Scenario.platform Scenario.options
              Scenario.mixedInput _ _ mixed_team_created)
    as (organization & _ & Hcalls).
  rewrite <- (length_map fst), Hcalls, length_map. reflexivity.
Defined.

(** X3 on scenario 8: ["validuser"] is accepted. *)
Lemma accepted_member_reported_witness :
  In (AddOrUpdateMembership
        (membershipParams "test-org" Scenario.createdTeam Scenario.validuser)
        (inr tt))
     (traceOf (handler Scenario.platform Scenario.options Scenario.mixedInput))
  /\ outcomeOf (handler Scenario.platform Scenario.options Scenario.mixedInput)
     = Returned tt.
Proof.
  split; [exact mixed_accepted_call|].
  exact (proj1 (@accepted_member_reported Scenario.platform Scenario.options
                  Scenario.mixedInput _ mixed_accepted_call)).
Defined.

(** X4 on scenario 8. *)
Lemma reported_members_were_called_witness :
  exists added failed,
    In ("membersAdded"%string, OutAdded added)
       (outputs (traceOf (handler Scenario.platform Scenario.options
                            Scenario.mixedInput)))
    /\ In ("membersFailed"%string, OutFailed failed)
          (outputs (traceOf (handler Scenario.platform Scenario.options
                               Scenario.mixedInput)))
    /\ forall f, In f failed ->
         exists p e,
           In (AddOrUpdateMembership p (inl e))
              (traceOf (handler Scenario.platform Scenario.options
                          Scenario.mixedInput))
           /\ f = {| Failed.username := MembershipParams.username p;
                     Failed.role := MembershipParams.role p;
                     Failed.error := Js.errorMessage e |}.
Proof.
  eexists. eexists.
  assert (Ha : In ("membersAdded"%string,
                   OutAdded
                     [ {| Added.username := "validuser";
                          Added.role := Role.member |};
                       {| Added.username := "user1";
                          Added.role := Role.member |} ])
                  (outputs (traceOf (handler Scenario.platform Scenario.options
                                       Scenario.mixedInput))))
    by in_computed.
  assert (Hf : In ("membersFailed"%string,
                   OutFailed
                     [ {| Failed.username := "invaliduser";
                          Failed.role := Role.maintainer;
                          Failed.error := "User not found" |} ])
                  (outputs (traceOf (handler Scenario.platform Scenario.options
                                       Scenario.mixedInput))))
    by in_computed.
  split; [exact Ha|]. split; [exact Hf|].
  exact (proj2 (@reported_members_were_called Scenario.platform
                  Scenario.options Scenario.mixedInput _ _ Ha Hf)).
Defined.

(** X5 on the input without organization. *)
Lemma handler_throws_its_own_errors_witness :
  outcomeOf (handler Scenario.platform Scenario.options
               Scenario.withoutOrganization)
  = Threw (Js.newError "Organization name is required but was not provided")
  /\ exists m,
       Js.newError "Organization name is required but was not provided"
       = Js.newError m.
Proof.
  assert (H : outcomeOf (handler Scenario.platform Scenario.options
                           Scenario.withoutOrganization)
              = Threw (Js.newError
                         "Organization name is required but was not provided"))
    by reflexivity.
  split; [exact H|].
  destruct (@handler_throws_its_own_errors Scenario.platform Scenario.options
              Scenario.withoutOrganization _ H) as (m & Hm & _).
  exists m. exact Hm.
Defined.

(** X6 with a provider that answers without a token. *)
Lemma no_token_available_witness :
  In (GetCredentials "https://github.com/test-org"
        (inr {| Credentials.token := None |}))
     (traceOf (handler Scenario.platform MoreScenarios.optionsEmptyHanded
                 Scenario.basicInput))
  /\ Js.truthy (Credentials.token {| Credentials.token := None |}) = false
  /\ octokitClients
       (traceOf (handler Scenario.platform MoreScenarios.optionsEmptyHanded
                   Scenario.basicInput))
     = [].
Proof.
  assert (H : In (GetCredentials "https://github.com/test-org"
                    (inr {| Credentials.token := None |}))
                 (traceOf (handler Scenario.platform
                             MoreScenarios.optionsEmptyHanded
                             Scenario.basicInput)))
    by in_computed.
  split; [exact H|]. split; [reflexivity|].
  destruct (@no_token_available Scenario.platform
              MoreScenarios.optionsEmptyHanded Scenario.basicInput _ _ H
              eq_refl) as (organization & _ & _ & Hclients & _).
  exact Hclients.
Defined.

(** X7 with the provider of the test suite. *)
Lemma issued_token_authenticates_witness :
  In (GetCredentials "https://github.com/test-org"
        (inr {| Credentials.token := Some "mock-github-token"%string |}))
     (traceOf (handler Scenario.platform Scenario.options Scenario.basicInput))
  /\ "mock-github-token"%string <> ""%string
  /\ map OctokitOptions.auth
       (octokitClients
          (traceOf (handler Scenario.platform Scenario.options
                      Scenario.basicInput)))
     = ["mock-github-token"%string].
Proof.
  split; [exact basic_credentials_issued|]. split; [discriminate|].
  assert (Hne : "mock-github-token"%string <> ""%string) by discriminate.
  destruct (@issued_token_authenticates Scenario.platform Scenario.options
              Scenario.basicInput _ _ "mock-github-token"%string
              basic_credentials_issued eq_refl Hne)
    as (cfg & _ & Hclients).
  rewrite Hclients. reflexivity.
Defined.

(** X8 on the basic input. *)
Lemma client_options_witness :
  In (octokitOptionsFor "mock-github-token" Scenario.githubCom)
     (octokitClients
        (traceOf (handler Scenario.platform Scenario.options
                    Scenario.basicInput)))
  /\ OctokitOptions.request_timeout
       (octokitOptionsFor "mock-github-token" Scenario.githubCom)
     = 60000%Z.
Proof.
  assert (H : In (octokitOptionsFor "mock-github-token" Scenario.githubCom)
                 (octokitClients
                    (traceOf (handler Scenario.platform Scenario.options
                                Scenario.basicInput))))
    by in_computed.
  split; [exact H|].
  destruct (@client_options Scenario.platform Scenario.options
              Scenario.basicInput _ H) as (cfg & _ & _ & _ & _ & Htimeout).
  exact Htimeout.
Defined.

(** X9 with the provider of the test suite injected. *)
Lemma injected_provider_answers_witness :
  githubCredentialsProvider Scenario.options
  = Some Scenario.mockCredentialsProvider
  /\ fromIntegrationsCalls
       (traceOf (handler Scenario.platform Scenario.options
                   Scenario.basicInput))
     = [].
Proof.
  split; [reflexivity|].
  apply (@injected_provider_answers Scenario.platform Scenario.options
           Scenario.basicInput Scenario.mockCredentialsProvider).
  reflexivity.
Defined.


(** X14 on the basic input. *)
Lemma create_call_parameters_witness :
  In (TeamsCreate (createParamsOf Scenario.basicInput "test-org")
        (inr Scenario.createdTeam))
     (traceOf (handler Scenario.platform Scenario.options Scenario.basicInput))
  /\ exists organization,
       Input.organization Scenario.basicInput = Some organization
       /\ organization <> ""%string.
Proof.
  split; [exact basic_team_created|].
  destruct (@create_call_parameters Scenario.platform Scenario.options
              Scenario.basicInput _ _ basic_team_created)
    as (organization & Horg & Hne & _).
  exists organization. auto.
Defined.

(** X15 on the resolver called with an empty owner. *)
Lemma resolver_requires_owner_witness :
  ScmIntegrationRegistry.github_byHost
    (integrations MoreScenarios.resolverNoOwner)
    (host MoreScenarios.resolverNoOwner) = Some Scenario.githubCom
  /\ Js.truthy (token MoreScenarios.resolverNoOwner) = false
  /\ owner MoreScenarios.resolverNoOwner = ""%string
  /\ getCredentialsCalls
       (snd (getOctokitOptionsForOrg Scenario.platform
               MoreScenarios.resolverNoOwner []))
     = [].
Proof.
  split; [reflexivity|]. split; [reflexivity|]. split; [reflexivity|].
  rewrite (@resolver_requires_owner Scenario.platform
             MoreScenarios.resolverNoOwner [] Scenario.githubCom
             eq_refl eq_refl eq_refl).
  reflexivity.
Defined.

(** X17 on an organization of the test suite. *)
Lemma credentialsUrl_injective_witness :
  credentialsUrl "github.com" "test-org" = credentialsUrl "github.com" "test-org"
  /\ "test-org"%string = "test-org"%string.
Proof.
  split; [reflexivity|].
  apply (@credentialsUrl_injective "github.com" "test-org" "test-org").
  reflexivity.
Defined.

(** X20 with a token in the input and no integration. *)
Lemma legacy_integration_required_witness :
  ScmIntegrationRegistry.github_byHost Scenario.noIntegrations "github.com"
  = None
  /\ Legacy.outcomeOf
       (Legacy.handler LegacyScenario.Octokit Scenario.noIntegrations
          (Scenario.withToken (Some "user-provided-token"%string)))
     = Threw (Js.newError "GitHub integration not configured").
Proof.
  split; [reflexivity|].
  apply (@legacy_integration_required LegacyScenario.Octokit
           Scenario.noIntegrations
           (Scenario.withToken (Some "user-provided-token"%string))).
  reflexivity.
Defined.

(** X21 with an input without token: the integration's token is used. *)
Lemma legacy_token_choice_witness :
  In "integration-token"%string
     (Legacy.octokitClients
        (Legacy.traceOf
           (Legacy.handler LegacyScenario.Octokit
              LegacyScenario.integrationsWithToken Scenario.basicInput)))
  /\ "integration-token"%string <> ""%string.
Proof.
  assert (H : In "integration-token"%string
                 (Legacy.octokitClients
                    (Legacy.traceOf
                       (Legacy.handler LegacyScenario.Octokit
                          LegacyScenario.integrationsWithToken
                          Scenario.basicInput))))
    by in_computed.
  split; [exact H|].
  exact (proj1 (@legacy_token_choice LegacyScenario.Octokit
                  LegacyScenario.integrationsWithToken Scenario.basicInput
                  _ H)).
Defined.

(** X22 with the integration of the test suite, which has no token. *)
Lemma legacy_token_required_witness :
  ScmIntegrationRegistry.github_byHost Scenario.mockIntegrations "github.com"
  = Some Scenario.githubCom
  /\ Js.truthy (Input.token Scenario.basicInput) = false
  /\ Js.truthy (IntegrationConfig.token Scenario.githubCom) = false
  /\ Legacy.outcomeOf
       (Legacy.handler LegacyScenario.Octokit Scenario.mockIntegrations
          Scenario.basicInput)
     = Threw (Js.newError
                "GitHub token not provided and not configured in integration").
Proof.
  split; [reflexivity|]. split; [reflexivity|]. split; [reflexivity|].
  apply (@legacy_token_required LegacyScenario.Octokit
           Scenario.mockIntegrations Scenario.basicInput Scenario.githubCom);
    reflexivity.
Defined.

Lemma legacy_mixed_rejected_call :
  In (Legacy.AddOrUpdateMembership
        (Legacy.membershipParams Scenario.mixedInput Scenario.createdTeam
           Scenario.invaliduser)
        (inl (Js.newError "User not found")))
     (Legacy.traceOf
        (Legacy.handler LegacyScenario.Octokit
           LegacyScenario.integrationsWithToken Scenario.mixedInput)).
Proof. in_computed. Defined.

(** X23 on scenario 8. *)
Lemma legacy_member_failure_unreported_witness :
  In (Legacy.AddOrUpdateMembership
        (Legacy.membershipParams Scenario.mixedInput Scenario.createdTeam
           Scenario.invaliduser)
        (inl (Js.newError "User not found")))
     (Legacy.traceOf
        (Legacy.handler LegacyScenario.Octokit
           LegacyScenario.integrationsWithToken Scenario.mixedInput))
  /\ Legacy.outcomeOf
       (Legacy.handler LegacyScenario.Octokit
          LegacyScenario.integrationsWithToken Scenario.mixedInput)
     = Returned tt.
Proof.
  split; [exact legacy_mixed_rejected_call|].
  exact (proj1 (@legacy_member_failure_unreported LegacyScenario.Octokit
                  LegacyScenario.integrationsWithToken Scenario.mixedInput
                  _ _ legacy_mixed_rejected_call)).
Defined.

(** X24 on the input without organization. *)
Lemma legacy_organization_unchecked_witness :
  ScmIntegrationRegistry.github_byHost LegacyScenario.integrationsWithToken
    "github.com" = Some LegacyScenario.githubComWithToken
  /\ Legacy.tokenFor Scenario.withoutOrganization
       LegacyScenario.githubComWithToken = Some "integration-token"%string
  /\ "integration-token"%string <> ""%string
  /\ Input.organization Scenario.withoutOrganization = None
  /\ length (Legacy.teamsCreateCalls
               (Legacy.traceOf
                  (Legacy.handler LegacyScenario.Octokit
                     LegacyScenario.integrationsWithToken
                     Scenario.withoutOrganization)))
     = 1.
Proof.
  assert (Hne : "integration-token"%string <> ""%string) by discriminate.
  split; [reflexivity|]. split; [reflexivity|]. split; [exact Hne|].
  split; [reflexivity|].
  destruct (@legacy_organization_unchecked LegacyScenario.Octokit
              LegacyScenario.integrationsWithToken Scenario.withoutOrganization
              LegacyScenario.githubComWithToken "integration-token"%string
              eq_refl eq_refl Hne) as (r & Hcalls).
  rewrite Hcalls. reflexivity.
Defined.

(** X25 when the remote service refuses the name. *)
Lemma legacy_creation_failure_witness :
  In (Legacy.TeamsCreate (Legacy.createParamsOf Scenario.basicInput)
        (inl (Js.newError "Validation Failed: Name must be unique for this org")))
     (Legacy.traceOf
        (Legacy.handler LegacyScenario.rejectingOctokitConstructor
           LegacyScenario.integrationsWithToken Scenario.basicInput))
  /\ Legacy.outputs
       (Legacy.traceOf
          (Legacy.handler LegacyScenario.rejectingOctokitConstructor
             LegacyScenario.integrationsWithToken Scenario.basicInput))
     = [].
Proof.
  assert (H : In (Legacy.TeamsCreate (Legacy.createParamsOf Scenario.basicInput)
                    (inl (Js.newError
                       "Validation Failed: Name must be unique for this org")))
                 (Legacy.traceOf
                    (Legacy.handler LegacyScenario.rejectingOctokitConstructor
                       LegacyScenario.integrationsWithToken
                       Scenario.basicInput)))
    by in_computed.
  split; [exact H|].
  destruct (@legacy_creation_failure LegacyScenario.rejectingOctokitConstructor
              LegacyScenario.integrationsWithToken Scenario.basicInput _ _ H)
    as (_ & _ & Hout).
  exact Hout.
Defined.
